(** * QTL abstract classifier: BERT + GloVe fusion pipeline

    A shallow embedding of the notebook [bert_nd_grove_2.ipynb]:
    GloVe loading and averaging, the [BertGloveDataset] builder, [collate_fn],
    the [BertWithGlove.forward] pass and the decision-threshold sweep.

    Conventions.
    - A Python [str] is a [string]; each character stands for the code point
      of the same number (the Latin-1 range).
    - A float is an exact rational ([Q]); rounding is not modelled.  The
      transcendental functions of the numeric libraries (log-softmax,
      softmax) and their string-to-float conversion are parameters.
    - A 1-D array or tensor is a list, a 2-D one a list of rows.
    - A raised exception is a [Raise] result; [dict] stores are [gmap]s. *)

From Stdlib Require Import QArith Qround ZArith Lia Ascii String.
From stdpp Require Import base option list strings gmap fin_maps.

Local Open Scope string_scope.
Local Open Scope list_scope.

(** ** Python: exceptions, sequence indexing, [str.strip] and [str.split] *)

Module Py.

Inductive exn : Type :=
| IndexError
| KeyError
| ValueError
| RuntimeError
| TypeError.

Inductive result (A : Type) : Type :=
| Ok (a : A)
| Raise (e : exn).
Global Arguments Ok {A} a.
Global Arguments Raise {A} e.

Global Instance result_ret : MRet result := fun A a => Ok a.
Global Instance result_bind : MBind result := fun A B f m =>
  match m with
  | Ok a => f a
  | Raise e => Raise e
  end.
Global Instance result_fmap : FMap result := fun A B f m =>
  match m with
  | Ok a => Ok (f a)
  | Raise e => Raise e
  end.

Definition is_Ok {A} (m : result A) : bool :=
  match m with Ok _ => true | Raise _ => false end.

(** [for x in xs: ...] over a fallible body producing one value per item. *)
Fixpoint mapM {A B} (f : A -> result B) (xs : list A) : result (list B) :=
  match xs with
  | [] => Ok []
  | x :: xs' => y ← f x; ys ← mapM f xs'; mret (y :: ys)
  end.

(** [xs[i]] for a Python sequence: negative indices count from the end. *)
Definition index {A} (xs : list A) (i : Z) : result A :=
  let n := Z.of_nat (length xs) in
  let j := (if i <? 0 then i + n else i)%Z in
  if ((0 <=? j) && (j <? n))%Z
  then match xs !! Z.to_nat j with Some x => Ok x | None => Raise IndexError end
  else Raise IndexError.

(** [str.isspace] on one character, for code points below 256. *)
Definition isspace (c : ascii) : bool :=
  let n := nat_of_ascii c in
  (((9 <=? n) && (n <=? 13)) || ((28 <=? n) && (n <=? 32))
   || (n =? 133) || (n =? 160))%nat.

Definition is_empty (s : string) : bool :=
  match s with EmptyString => true | String _ _ => false end.

(** [s.split()]: the maximal runs of non-whitespace characters, in order. *)
Fixpoint split_from (tok : string) (s : string) : list string :=
  match s with
  | EmptyString => if is_empty tok then [] else [tok]
  | String c s' =>
      if isspace c
      then (if is_empty tok then split_from "" s' else tok :: split_from "" s')
      else split_from (tok +:+ String c "") s'
  end.

Definition split (s : string) : list string := split_from "" s.

Fixpoint lstrip (s : string) : string :=
  match s with
  | EmptyString => EmptyString
  | String c s' => if isspace c then lstrip s' else s
  end.

Fixpoint rstrip (s : string) : string :=
  match s with
  | EmptyString => EmptyString
  | String c s' =>
      let r := rstrip s' in
      if is_empty r && isspace c then EmptyString else String c r
  end.

(** [s.strip()] *)
Definition strip (s : string) : string := rstrip (lstrip s).

End Py.
Import Py.

(** ** numpy / torch arrays *)

Module Np.

(** [np.zeros(n)] *)
Definition zeros (n : nat) : list Q := replicate n 0%Q.

(** element-wise sum of two rows of one length *)
Definition add (u v : list Q) : list Q := zip_with Qplus u v.

(** [np.mean(v :: vs, axis=0)] on a non-empty list of 1-D arrays: the rows
    are summed and the sum divided by their number, here without the
    rounding of float32; rows of different lengths cannot form a 2-D
    array. *)
Definition mean_axis0 (v : list Q) (vs : list (list Q)) : result (list Q) :=
  if forallb (fun w => (length w =? length v)%nat) vs
  then Ok (map (fun s => (s / inject_Z (Z.of_nat (S (length vs))))%Q)
               (fold_left add vs v))
  else Raise ValueError.

End Np.

(** ** GloVe averaging *)

(** [text_to_avg_glove(text, embeddings_dict, embed_dim)] *)
Definition text_to_avg_glove (text : string) (embeddings_dict : gmap string (list Q))
    (embed_dim : nat) : result (list Q) :=
  let tokens := Py.split text in
  let vectors :=
    fold_left (fun vectors token =>
                 match embeddings_dict !! token with
                 | Some v => vectors ++ [v]
                 | None => vectors
                 end) tokens [] in
  match vectors with
  | [] => Ok (Np.zeros embed_dim)
  | v :: vs => Np.mean_axis0 v vs
  end.

(** ** GloVe loading *)

(** A plain decimal literal: an optional sign, digits, and an optional
    fraction.  numpy's string-to-float conversion reads such a literal as
    the number it denotes; it accepts more (exponents, [inf], [nan]). *)
Module Decimal.

Definition digit (c : ascii) : option Z :=
  let n := nat_of_ascii c in
  if ((48 <=? n) && (n <=? 57))%nat then Some (Z.of_nat n - 48)%Z else None.

Fixpoint digits (acc : Z) (len : nat) (s : string) : option (Z * nat) :=
  match s with
  | EmptyString => Some (acc, len)
  | String c s' =>
      match digit c with
      | Some d => digits (10 * acc + d)%Z (S len) s'
      | None => None
      end
  end.

Fixpoint split_dot (s : string) : string * option string :=
  match s with
  | EmptyString => (EmptyString, None)
  | String c s' =>
      if Ascii.eqb c "."%char then (EmptyString, Some s')
      else let '(i, f) := split_dot s' in (String c i, f)
  end.

Definition unsigned (s : string) : option Q :=
  let '(i, f) := split_dot s in
  if Py.is_empty i then None else
  match digits 0 0 i, f with
  | Some (n, _), None => Some (inject_Z n)
  | Some (n, _), Some fs =>
      match digits 0 0 fs with
      | Some (m, k) =>
          Some (inject_Z n + inject_Z m / inject_Z (10 ^ Z.of_nat k))%Q
      | None => None
      end
  | None, _ => None
  end.

Definition parse (s : string) : option Q :=
  match s with
  | String c s' =>
      if Ascii.eqb c "-"%char then Qopp <$> unsigned s' else unsigned s
  | EmptyString => None
  end.

End Decimal.

Section Glove.

(** The conversion [np.array(strings, dtype=np.float32)] applies to each
    string; [None] stands for a string it rejects. *)
Variable float_of_string : string -> option Q.

(** [np.array(values, dtype=np.float32)] on a list of strings *)
Definition np_array (values : list string) : result (list Q) :=
  Py.mapM (fun s => match float_of_string s with
                    | Some q => Ok q
                    | None => Raise ValueError
                    end) values.

(** The body of [for line in f:], from the dict built so far. *)
Fixpoint load_lines (lines : list string) (embeddings : gmap string (list Q))
    : result (gmap string (list Q)) :=
  match lines with
  | [] => Ok embeddings
  | line :: rest =>
      let values := Py.split (Py.strip line) in
      word ← Py.index values 0;
      vector ← np_array (drop 1 values);
      load_lines rest (<[word := vector]> embeddings)
  end.

(** [load_glove_embeddings(glove_path)], on the lines of the opened file. *)
Definition load_glove_embeddings (file : list string) : result (gmap string (list Q)) :=
  load_lines file ∅.

End Glove.

(** ** Dataset builder *)

Record Item := {
  item_input_ids : list Z;
  item_attention_mask : list Z;
  item_glove_emb : list Q;
  item_labels : option Z
}.

Record BertGloveDataset := {
  ds_texts : list string;
  ds_labels : option (list Z);
  ds_glove_dim : nat;
  ds_glove_embs : list (list Q);
  ds_input_ids : list (list Z);
  ds_attention_mask : list (list Z)
}.

Section Dataset.

(** The subword tokenizer is a collaborator: [subword_ids text] is the
    sequence of token ids it assigns to a text, [pad_token_id] its padding
    id. *)
Variable subword_ids : string -> list Z.
Variable pad_token_id : Z.

(** Modelled from the spec: the call [tokenizer(texts, padding="max_length",
    truncation=True, max_length=max_length)] of the tokenizer library, which
    is not part of the notebook.  The spec's words: truncate to max_length
    tokens, pad to exactly max_length with a padding token id, and set
    attention_mask to 1 for real tokens / 0 for padding. *)
Definition encode (max_length : nat) (text : string) : list Z * list Z :=
  let ids := take max_length (subword_ids text) in
  let pad := (max_length - length ids)%nat in
  (ids ++ replicate pad pad_token_id,
   replicate (length ids) 1%Z ++ replicate pad 0%Z).

(** [BertGloveDataset.__init__], on a non-empty list of texts (on the
    empty list the tokenizer call raises before a dataset is built). *)
Definition BertGloveDataset_init (texts : list string) (labels : option (list Z))
    (glove_dict : gmap string (list Q)) (max_length glove_dim : nat)
    : result BertGloveDataset :=
  glove_embs ← Py.mapM (fun t => text_to_avg_glove t glove_dict glove_dim) texts;
  let encodings := map (encode max_length) texts in
  mret {| ds_texts := texts;
          ds_labels := labels;
          ds_glove_dim := glove_dim;
          ds_glove_embs := glove_embs;
          ds_input_ids := map fst encodings;
          ds_attention_mask := map snd encodings |}.

(** [BertGloveDataset.__len__] *)
Definition BertGloveDataset_len (self : BertGloveDataset) : nat :=
  length (ds_texts self).

(** [BertGloveDataset.__getitem__] *)
Definition BertGloveDataset_getitem (self : BertGloveDataset) (idx : Z) : result Item :=
  input_ids ← Py.index (ds_input_ids self) idx;
  attention_mask ← Py.index (ds_attention_mask self) idx;
  glove_emb ← Py.index (ds_glove_embs self) idx;
  labels ← match ds_labels self with
           | Some ls => l ← Py.index ls idx; mret (Some l)
           | None => mret None
           end;
  mret {| item_input_ids := input_ids;
          item_attention_mask := attention_mask;
          item_glove_emb := glove_emb;
          item_labels := labels |}.

End Dataset.

(** ** Batch collation *)

Module Torch.

(** [torch.stack] on 1-D tensors: the list must be non-empty and the
    tensors of one length. *)
Definition stack {A} (ts : list (list A)) : result (list (list A)) :=
  match ts with
  | [] => Raise RuntimeError
  | t :: rest =>
      if forallb (fun u => (length u =? length t)%nat) rest
      then Ok ts else Raise RuntimeError
  end.

(** [torch.stack] on 0-dimensional tensors *)
Definition stack0 {A} (ts : list A) : result (list A) :=
  match ts with
  | [] => Raise RuntimeError
  | _ :: _ => Ok ts
  end.

(** [torch.zeros(n, d)] *)
Definition zeros (n d : nat) : list (list Q) := replicate n (Np.zeros d).

(** [torch.cat((a, b), dim=1)] on 2-D tensors: one row count. *)
Definition cat1 {A} (a b : list (list A)) : result (list (list A)) :=
  if (length a =? length b)%nat then Ok (zip_with app a b) else Raise RuntimeError.

End Torch.

Record Batch := {
  batch_input_ids : list (list Z);
  batch_attention_mask : list (list Z);
  batch_glove_emb : list (list Q);
  batch_labels : option (list Z)
}.

(** [x["labels"]] *)
Definition get_labels (x : Item) : result Z :=
  match item_labels x with
  | Some l => Ok l
  | None => Raise KeyError
  end.

(** [collate_fn(batch)]; the returned dict always has the key ["labels"],
    whose value is [None] or the stacked labels. *)
Definition collate_fn (batch : list Item) : result Batch :=
  input_ids ← Torch.stack (map item_input_ids batch);
  attention_mask ← Torch.stack (map item_attention_mask batch);
  glove_emb ← Torch.stack (map item_glove_emb batch);
  first ← Py.index batch 0;
  labels ← (if bool_decide (is_Some (item_labels first))
            then ls ← Py.mapM get_labels batch;
                 stacked ← Torch.stack0 ls;
                 mret (Some stacked)
            else mret None);
  mret {| batch_input_ids := input_ids;
          batch_attention_mask := attention_mask;
          batch_glove_emb := glove_emb;
          batch_labels := labels |}.

(** ** The hybrid classifier *)

Record BertConfig := {
  hidden_size : nat;
  num_labels : nat;
  hidden_dropout_prob : Q
}.

(** [nn.Linear(in_features, out_features)]: a dense weight matrix of shape
    (out_features, in_features) and a bias of length out_features. *)
Record Linear := {
  in_features : nat;
  out_features : nat;
  weight : nat -> nat -> Q;
  bias : nat -> Q
}.

Definition dot (w : nat -> Q) (x : list Q) : Q :=
  fold_left Qplus (imap (fun j xj => (w j * xj)%Q) x) 0%Q.

(** [Linear.forward] on a 2-D input: each row must have [in_features]
    entries. *)
Definition Linear_forward (l : Linear) (x : list (list Q)) : result (list (list Q)) :=
  if forallb (fun row => (length row =? in_features l)%nat) x
  then Ok (map (fun row =>
                  map (fun k => (dot (weight l k) row + bias l k)%Q)
                      (seq 0 (out_features l))) x)
  else Raise RuntimeError.

(** [nn.Dropout(p)]: the identity in evaluation mode; in training mode the
    entries not kept by the random draw [keep] become 0 and the others are
    scaled by 1/(1-p). *)
Definition Dropout (p : Q) (training : bool) (keep : nat -> nat -> bool)
    (x : list (list Q)) : list (list Q) :=
  if training
  then imap (fun i row =>
               imap (fun j v => if keep i j then (v / (1 - p))%Q else 0%Q) row) x
  else x.

Record BertWithGlove := {
  config : BertConfig;
  dropout_p : Q;
  classifier : Linear
}.

(** [BertWithGlove.__init__(config, glove_dim)]; [W] and [b] are the freshly
    initialised parameters of the classifier. *)
Definition BertWithGlove_init (cfg : BertConfig) (glove_dim : nat)
    (W : nat -> nat -> Q) (b : nat -> Q) : BertWithGlove :=
  let combined_dim := (hidden_size cfg + glove_dim)%nat in
  {| config := cfg;
     dropout_p := hidden_dropout_prob cfg;
     classifier := {| in_features := combined_dim;
                      out_features := num_labels cfg;
                      weight := W;
                      bias := b |} |}.

Record Output := {
  loss : option Q;
  logits : list (list Q)
}.

(** Mode and random draw of a forward call. *)
Record Mode := {
  training : bool;
  keep : nat -> nat -> bool
}.

Definition eval_mode : Mode := {| training := false; keep := fun _ _ => true |}.

Section Model.

(** The encoder is a collaborator: [pooler ids mask k] is entry [k] of the
    pooled output it computes for one example; [BertModel(config)] gives
    [config.hidden_size] entries. *)
Variable pooler : list Z -> list Z -> nat -> Q.

(** [torch.log_softmax] and [torch.softmax] on one row. *)
Variable log_softmax : list Q -> list Q.
Variable softmax : list Q -> list Q.

(** [self.bert(input_ids, attention_mask).pooler_output] *)
Definition bert_pooler_output (cfg : BertConfig)
    (input_ids attention_mask : list (list Z)) : result (list (list Q)) :=
  if (length input_ids =? length attention_mask)%nat
  then Ok (zip_with (fun ids mask => map (pooler ids mask) (seq 0 (hidden_size cfg)))
                    input_ids attention_mask)
  else Raise RuntimeError.

(** [nn.CrossEntropyLoss(weight=w)(logits, labels)], mean reduction: the
    weighted mean of the negative log-probabilities of the labels; a label
    equal to [ignore_index] (-100) is skipped.  (A mean over no label is
    nan in torch and 0 here.) *)
Definition CrossEntropyLoss (w : list Q) (lg : list (list Q)) (labels : list Z)
    : result Q :=
  if negb (length labels =? length lg)%nat then Raise ValueError else
  if negb (forallb (fun row => (length row =? length w)%nat) lg) then Raise RuntimeError else
  if negb (forallb (fun y => (y =? -100)%Z || ((0 <=? y) && (y <? Z.of_nat (length w)))%Z) labels)
  then Raise IndexError else
  let terms :=
    zip_with (fun row y =>
                if (y =? -100)%Z then (0%Q, 0%Q)
                else let wy := nth (Z.to_nat y) w 0%Q in
                     ((wy * - nth (Z.to_nat y) (log_softmax row) 0)%Q, wy))
             lg labels in
  Ok (fold_left Qplus (map fst terms) 0 / fold_left Qplus (map snd terms) 0)%Q.

(** The weights of the loss in [forward]: class 0 = 1.0, class 1 = 3.0 *)
Definition class_weights : list Q := [1%Q; 3%Q].

(** [BertWithGlove.forward(input_ids, attention_mask, glove_emb, labels)] *)
Definition forward (self : BertWithGlove) (mode : Mode)
    (input_ids attention_mask : list (list Z))
    (glove_emb : option (list (list Q))) (labels : option (list Z))
    : result Output :=
  pooled_output ← bert_pooler_output (config self) input_ids attention_mask;
  let pooled_output :=
    Dropout (dropout_p self) (training mode) (keep mode) pooled_output in
  let glove_emb :=
    match glove_emb with
    | None => Torch.zeros (length pooled_output) 300
    | Some g => g
    end in
  combined ← Torch.cat1 pooled_output glove_emb;
  logits ← Linear_forward (classifier self) combined;
  loss ← match labels with
         | Some y => l ← CrossEntropyLoss class_weights logits y; mret (Some l)
         | None => mret None
         end;
  mret {| loss := loss; logits := logits |}.

(** *** Inference *)

Fixpoint chunks {A} (fuel n : nat) (xs : list A) : list (list A) :=
  match fuel, xs with
  | S fuel', _ :: _ => take n xs :: chunks fuel' n (drop n xs)
  | _, _ => []
  end.

Section Predict.

Variable subword_ids : string -> list Z.
Variable pad_token_id : Z.

(** The conversion numpy applies to a Python-float threshold before it
    compares it with the float32 probabilities: the threshold is rounded to
    their precision. *)
Variable to_float32 : Q -> Q.

(** One prediction step of the library's trainer: collate, then call the
    model in evaluation mode on the collated fields.  With labels the
    trainer takes the loss out of the outputs and keeps the logits; without
    labels the absent loss stays among the outputs and the step fails on it
    ([TypeError]). *)
Definition prediction_step (model : BertWithGlove) (batch : list Item)
    : result (list (list Q)) :=
  b ← collate_fn batch;
  out ← forward model eval_mode (batch_input_ids b) (batch_attention_mask b)
                (Some (batch_glove_emb b)) (batch_labels b);
  match loss out with
  | Some _ => mret (logits out)
  | None => Raise TypeError
  end.

(** [trainer.predict(dataset).predictions]: the examples in order, in
    batches of [per_device_eval_batch_size], the logits concatenated. *)
Definition predict (model : BertWithGlove) (batch_size : nat)
    (dataset : BertGloveDataset) : result (list (list Q)) :=
  let n := BertGloveDataset_len dataset in
  items ← Py.mapM (fun i => BertGloveDataset_getitem dataset (Z.of_nat i)) (seq 0 n);
  outs ← Py.mapM (prediction_step model) (chunks n batch_size items);
  mret (concat outs).

(** [torch.softmax(torch.tensor(logits), dim=1).numpy()[:, 1]] *)
Definition positive_probs (lg : list (list Q)) : result (list Q) :=
  Py.mapM (fun row => Py.index (softmax row) 1) lg.

(** [(probs >= t).astype(int)], for a threshold [t] of the precision of the
    probabilities (numpy converts a Python float to it first). *)
Definition threshold_labels (probs : list Q) (t : Q) : list Z :=
  map (fun p => if Qle_bool t p then 1%Z else 0%Z) probs.

Definition final_threshold : Q := 3 # 10.

(** The test cell: the dataset is built with the placeholder labels
    [[0] * len(df_test)] ([labels] below), predicted, and thresholded. *)
Definition test_labels (model : BertWithGlove) (texts : list string)
    (labels : option (list Z)) (glove_dict : gmap string (list Q))
    : result (list Z) :=
  test_dataset ← BertGloveDataset_init subword_ids pad_token_id
                   texts labels glove_dict 256 300;
  test_logits ← predict model 8 test_dataset;
  test_probs ← positive_probs test_logits;
  mret (threshold_labels test_probs (to_float32 final_threshold)).

End Predict.

End Model.

(** ** Metrics and the threshold sweep *)

Module Sk.

(** Number of examples with true label [a] and predicted label [b]. *)
Definition count (a b : Z) (y_true y_pred : list Z) : Z :=
  Z.of_nat (length (filter (fun yp => fst yp = a /\ snd yp = b) (zip y_true y_pred))).

Definition tp := count 1 1.
Definition fp := count 0 1.
Definition fn := count 1 0.

(** [f1_score(y_true, y_pred)] for 0/1 labels (positive class 1, the
    default [zero_division]): an undefined score is 0.  (On other labels
    sklearn raises; the statements below take labels 0/1.) *)
Definition f1_score (y_true y_pred : list Z) : result Q :=
  if negb (length y_true =? length y_pred)%nat then Raise ValueError else
  let denom := (2 * tp y_true y_pred + fp y_true y_pred + fn y_true y_pred)%Z in
  if (denom =? 0)%Z then Ok 0%Q
  else Ok (inject_Z (2 * tp y_true y_pred) / inject_Z denom)%Q.

(** [recall_score(y_true, y_pred)], the recall column of the reports. *)
Definition recall_score (y_true y_pred : list Z) : result Q :=
  if negb (length y_true =? length y_pred)%nat then Raise ValueError else
  let denom := (tp y_true y_pred + fn y_true y_pred)%Z in
  if (denom =? 0)%Z then Ok 0%Q
  else Ok (inject_Z (tp y_true y_pred) / inject_Z denom)%Q.

End Sk.

(** [np.arange(start, stop, step)] for a positive step *)
Definition np_arange (start stop step : Q) : list Q :=
  map (fun k => (start + inject_Z (Z.of_nat k) * step)%Q)
      (seq 0 (Z.to_nat (Qceiling ((stop - start) / step)))).

(** [a > b] on floats *)
Definition Qgt_bool (a b : Q) : bool := negb (Qle_bool a b).

(** The body of [for t in ...:] of the sweep cell, from the current
    [best_f1] and [best_t]. *)
Fixpoint sweep_loop (dev_probs : list Q) (y_dev : list Z) (ts : list Q)
    (best_f1 best_t : Q) : result (Q * Q) :=
  match ts with
  | [] => Ok (best_t, best_f1)
  | t :: ts' =>
      let y_pred := threshold_labels dev_probs t in
      f1 ← Sk.f1_score y_dev y_pred;
      if Qgt_bool f1 best_f1
      then sweep_loop dev_probs y_dev ts' f1 t
      else sweep_loop dev_probs y_dev ts' best_f1 best_t
  end.

(** The sweep over a list of candidate thresholds; result
    [(best_t, best_f1)]. *)
Definition sweep (dev_probs : list Q) (y_dev : list Z) (ts : list Q) : result (Q * Q) :=
  sweep_loop dev_probs y_dev ts 0 (1 # 2).

(** The sweep cell *)
Definition best_threshold (dev_probs : list Q) (y_dev : list Z) : result (Q * Q) :=
  sweep dev_probs y_dev (np_arange (5 # 100) (1 # 2) (1 # 100)).

(** ** Text preprocessing *)

(** [str.lower] on one character, for code points below 256: the letters
    A-Z and the accented capitals (192-222 without the multiplication
    sign) move up by 32. *)
Definition lower_char (c : ascii) : ascii :=
  let n := nat_of_ascii c in
  if (((65 <=? n) && (n <=? 90)) || ((192 <=? n) && (n <=? 214))
      || ((216 <=? n) && (n <=? 222)))%nat
  then ascii_of_nat (n + 32) else c.

(** [s.lower()] *)
Fixpoint lower (s : string) : string :=
  match s with
  | EmptyString => EmptyString
  | String c s' => String (lower_char c) (lower s')
  end.

(** [.fillna("")] on one cell; [None] is a missing value. *)
Definition fillna (cell : option string) : string :=
  match cell with
  | Some s => s
  | None => EmptyString
  end.

(** The ["text"] column of a record:
    [Title.fillna("").str.lower() + " " + Abstract.fillna("").str.lower()] *)
Definition row_text (title abstract : option string) : string :=
  lower (fillna title) +:+ " " +:+ lower (fillna abstract).

(** ** Argmax predictions and the trainer's metrics *)




Module SkReport.

Definition tn := Sk.count 0 0.



End SkReport.



(** [sum(pred_labels)] of the threshold report cell: the number of
    examples predicted positive at threshold [t]. *)
Definition predicted_positives (probs : list Q) (t : Q) : Z :=
  fold_left Z.add (threshold_labels probs t) 0%Z.

(** ** Reference notions used in the statements *)

(** The vectors of the in-vocabulary tokens of a text, in text order. *)
Definition hits (text : string) (store : gmap string (list Q)) : list (list Q) :=
  omap (fun token => store !! token) (Py.split text).

Definition Qsum (xs : list Q) : Q := foldr Qplus 0%Q xs.

(** Entry [j] of the element-wise arithmetic mean of the vectors [hs]. *)
Definition column_mean (hs : list (list Q)) (j : nat) : Q :=
  (Qsum (map (fun h => nth j h 0%Q) hs) / inject_Z (Z.of_nat (length hs)))%Q.

(** The store of scenarios A and B. *)
Definition storeA : gmap string (list Q) :=
  <["cow" := [1%Q; 0%Q]]> (<["gene" := [0%Q; 1%Q]]> ∅).

(** What a line of the embedding file contributes: its first field and
    the numbers its other fields denote. *)
Definition line_entry (float_of_string : string -> option Q)
    (line : string) (e : string * list Q) : Prop :=
  exists fields, Py.split (Py.strip line) = e.1 :: fields /\
    Forall2 (fun s q => float_of_string s = Some q) fields e.2.

(** A line that stops the load: blank, or with a rejected field after the
    first. *)
Definition line_bad (float_of_string : string -> option Q) (line : string) : Prop :=
  Py.split (Py.strip line) = [] \/
  exists s, s ∈ drop 1 (Py.split (Py.strip line)) /\ float_of_string s = None.

(** A toy tokenizer for the examples: one id per character. *)
Definition char_ids (text : string) : list Z :=
  map (fun c => Z.of_nat (nat_of_ascii c)) (list_ascii_of_string text).

(** Two examples whose tensors have the same shapes. *)
Definition same_shape (x y : Item) : Prop :=
  length (item_input_ids y) = length (item_input_ids x) /\
  length (item_attention_mask y) = length (item_attention_mask x) /\
  length (item_glove_emb y) = length (item_glove_emb x).

(** The logits of the model call on a collated batch without its labels,
    in evaluation mode. *)
Definition forward_logits (pooler : list Z -> list Z -> nat -> Q)
    (log_softmax : list Q -> list Q) (model : BertWithGlove) (batch : list Item)
    : result (list (list Q)) :=
  b ← collate_fn batch;
  out ← forward pooler log_softmax model eval_mode (batch_input_ids b)
                (batch_attention_mask b) (Some (batch_glove_emb b)) None;
  mret (logits out).

(** The logits of the examples of a dataset, from model calls without
    labels on its batches of [batch_size] examples. *)
Definition forward_logits_dataset (pooler : list Z -> list Z -> nat -> Q)
    (log_softmax : list Q -> list Q) (model : BertWithGlove) (batch_size : nat)
    (dataset : BertGloveDataset) : result (list (list Q)) :=
  let n := BertGloveDataset_len dataset in
  items ← Py.mapM (fun i => BertGloveDataset_getitem dataset (Z.of_nat i)) (seq 0 n);
  outs ← Py.mapM (forward_logits pooler log_softmax model) (chunks n batch_size items);
  mret (concat outs).

(** A rounding of thresholds to multiples of 2^-24, to the nearest. *)
Definition round24 (t : Q) : Q :=
  (inject_Z (Qfloor (t * inject_Z (2 ^ 24) + (1 # 2))) / inject_Z (2 ^ 24))%Q.

(** An example with its label field replaced. *)
Definition relabel (l : option Z) (x : Item) : Item :=
  {| item_input_ids := item_input_ids x;
     item_attention_mask := item_attention_mask x;
     item_glove_emb := item_glove_emb x;
     item_labels := l |}.

(** The positive-class F1 of the predictions at threshold [t]. *)
Definition f1_at (probs : list Q) (y_true : list Z) (t : Q) : Q :=
  match Sk.f1_score y_true (threshold_labels probs t) with
  | Ok q => q
  | Raise _ => 0%Q
  end.

(** [t] is the first candidate of [ts] at which [f] is greatest. *)
Definition first_best (f : Q -> Q) (ts : list Q) (t : Q) : Prop :=
  exists pre post, ts = pre ++ t :: post /\
    Forall (fun u => (f u < f t)%Q) pre /\ Forall (fun u => (f u <= f t)%Q) post.

Definition binary_label (v : Z) : Prop := v = 0%Z \/ v = 1%Z.

(** A string without whitespace characters. *)
Fixpoint no_space (s : string) : bool :=
  match s with
  | EmptyString => true
  | String c s' => negb (Py.isspace c) && no_space s'
  end.

(** A non-empty string without whitespace. *)
Definition is_token (s : string) : Prop := s <> EmptyString /\ no_space s = true.

(** Every vector of the store has dimension [D]. *)
Definition uniform_store (store : gmap string (list Q)) (D : nat) : Prop :=
  forall k v, store !! k = Some v -> length v = D.

(** * Properties *)

(** [map] is stdpp's [fmap] on lists; the lookup lemmas are stated on
    the latter. *)
Ltac fmapify :=
  repeat match goal with
         | |- context [map ?f ?l] => change (map f l) with (f <$> l)
         | H : context [map ?f ?l] |- _ => change (map f l) with (f <$> l) in H
         end.

(** ** Results *)

Lemma bind_Ok {A B} (m : result A) (f : A -> result B) (b : B) :
  (m ≫= f) = Ok b -> exists a, m = Ok a /\ f a = Ok b.
Proof. destruct m as [a|e]; [eauto | discriminate]. Qed.

Lemma mapM_length {A B} (f : A -> result B) (xs : list A) (ys : list B) :
  Py.mapM f xs = Ok ys -> length ys = length xs.
Proof.
  revert ys. induction xs as [|x xs IH]; intros ys H; simpl in H.
  - by inversion H.
  - apply bind_Ok in H as (y & _ & H). apply bind_Ok in H as (ys' & Hys & H).
    inversion H; subst. simpl. f_equal. by apply IH.
Qed.

Lemma mapM_lookup {A B} (f : A -> result B) (xs : list A) (ys : list B) i x :
  Py.mapM f xs = Ok ys -> xs !! i = Some x ->
  exists y, ys !! i = Some y /\ f x = Ok y.
Proof.
  revert ys i. induction xs as [|x0 xs IH]; intros ys i H Hx; [done|].
  simpl in H. apply bind_Ok in H as (y & Hy & H).
  apply bind_Ok in H as (ys' & Hys & H). inversion H; subst.
  destruct i as [|i]; simpl in *.
  - inversion Hx; subst. eauto.
  - eauto.
Qed.

Lemma mapM_ext {A B} (f g : A -> result B) (xs : list A) :
  (forall x, x ∈ xs -> f x = g x) -> Py.mapM f xs = Py.mapM g xs.
Proof.
  induction xs as [|x xs IH]; intros H; [done|]. simpl.
  rewrite (H x) by left. rewrite IH; [done|].
  intros y Hy. apply H. by right.
Qed.

Lemma index_nat {A} (xs : list A) (i : nat) (x : A) :
  xs !! i = Some x -> Py.index xs (Z.of_nat i) = Ok x.
Proof.
  intros H. pose proof (lookup_lt_Some _ _ _ H) as Hlt. unfold Py.index.
  destruct (Z.ltb_spec (Z.of_nat i) 0); [lia|].
  destruct (Z.leb_spec 0 (Z.of_nat i)); [|lia].
  destruct (Z.ltb_spec (Z.of_nat i) (Z.of_nat (length xs))); [|lia].
  simpl. by rewrite Nat2Z.id, H.
Qed.

Lemma index_0 {A} (x : A) (xs : list A) : Py.index (x :: xs) 0 = Ok x.
Proof. reflexivity. Qed.

Lemma index_elem_of {A} (xs : list A) (i : Z) (x : A) :
  Py.index xs i = Ok x -> x ∈ xs.
Proof.
  unfold Py.index. destruct (_ && _); [|discriminate].
  destruct (xs !! _) eqn:E; [|discriminate].
  intros [= <-]. by eapply list_elem_of_lookup_2.
Qed.

(** ** GloVe averaging *)

Lemma vectors_loop (store : gmap string (list Q)) (tokens : list string)
    (acc : list (list Q)) :
  fold_left (fun vectors token =>
               match store !! token with
               | Some v => vectors ++ [v]
               | None => vectors
               end) tokens acc
  = acc ++ omap (fun token => store !! token) tokens.
Proof.
  revert acc. induction tokens as [|t ts IH]; intros acc; simpl.
  - by rewrite app_nil_r.
  - rewrite IH. destruct (store !! t); simpl; [by rewrite <- app_assoc | done].
Qed.

Lemma nth_add (u v : list Q) (j : nat) :
  length u = length v -> (j < length u)%nat ->
  (nth j (Np.add u v) 0 == nth j u 0 + nth j v 0)%Q.
Proof.
  revert v j. induction u as [|a u IH]; intros [|b v] j Hl Hj; simpl in *; try lia.
  destruct j as [|j]; simpl; [reflexivity|]. apply IH; lia.
Qed.

Lemma length_add (u v : list Q) :
  length u = length v -> length (Np.add u v) = length u.
Proof. intros H. unfold Np.add. rewrite length_zip_with. lia. Qed.

Lemma sum_rows_length d (vs : list (list Q)) (v : list Q) :
  length v = d -> Forall (fun h => length h = d) vs ->
  length (fold_left Np.add vs v) = d.
Proof.
  intros Hv Hvs. revert v Hv.
  induction Hvs as [|w vs Hw Hvs IH]; intros v Hv; simpl; [done|].
  apply IH. rewrite length_add; lia.
Qed.

Lemma sum_rows_nth d (vs : list (list Q)) (v : list Q) (j : nat) :
  length v = d -> Forall (fun h => length h = d) vs -> (j < d)%nat ->
  (nth j (fold_left Np.add vs v) 0
   == nth j v 0 + Qsum (map (fun h => nth j h 0%Q) vs))%Q.
Proof.
  intros Hv Hvs Hj. revert v Hv.
  induction Hvs as [|w vs Hw Hvs IH]; intros v Hv; simpl.
  - unfold Qsum; simpl. ring.
  - rewrite IH by (rewrite length_add; lia). rewrite nth_add by lia.
    unfold Qsum; simpl. ring.
Qed.

Lemma mean_axis0_spec d (v : list Q) (vs : list (list Q)) :
  Forall (fun h => length h = d) (v :: vs) ->
  exists r, Np.mean_axis0 v vs = Ok r /\ length r = d /\
    forall j, (j < d)%nat -> (nth j r 0 == column_mean (v :: vs) j)%Q.
Proof.
  intros H. inversion H as [|? ? Hv Hvs]; subst.
  unfold Np.mean_axis0.
  assert (forallb (fun w => (length w =? length v)%nat) vs = true) as ->.
  { apply forallb_forall. intros w Hw. apply Nat.eqb_eq.
    rewrite Forall_forall in Hvs. apply Hvs. by apply list_elem_of_In. }
  eexists; split; [reflexivity|]. split.
  - rewrite length_map. by apply sum_rows_length.
  - intros j Hj.
    set (n := inject_Z (Z.of_nat (S (length vs)))).
    rewrite (nth_indep _ 0%Q ((fun s => s / n)%Q 0%Q))
      by (rewrite length_map, (sum_rows_length (length v)); done).
    rewrite (map_nth (fun s => (s / n)%Q)).
    rewrite (sum_rows_nth (length v)) by done.
    unfold column_mean, Qsum. simpl. reflexivity.
Qed.

Lemma text_to_avg_glove_hits (text : string) (store : gmap string (list Q)) (dim : nat) :
  text_to_avg_glove text store dim =
  match hits text store with
  | [] => Ok (Np.zeros dim)
  | v :: vs => Np.mean_axis0 v vs
  end.
Proof. unfold text_to_avg_glove, hits. by rewrite vectors_loop. Qed.

(** C2: [text_to_avg_glove] splits the text on whitespace and looks each
    token up in the store.  With no token found it returns the all-zero
    vector of length [dim]; otherwise (the found vectors having one length
    [d]) it returns the vector of length [d] whose entries are the
    arithmetic means of the found vectors' entries.  With the store
    {cow: [1,0], gene: [0,1]} and dim 2, "cow gene unknown" gives
    [0.5, 0.5] and "xyz123" gives [0, 0]. *)
Theorem text_to_avg_glove_mean (text : string) (store : gmap string (list Q)) (dim : nat) :
  (hits text store = [] ->
     text_to_avg_glove text store dim = Ok (replicate dim 0%Q)) /\
  (forall d, hits text store <> [] ->
     Forall (fun h => length h = d) (hits text store) ->
     exists v, text_to_avg_glove text store dim = Ok v /\ length v = d /\
       forall j, (j < d)%nat -> (nth j v 0 == column_mean (hits text store) j)%Q) /\
  text_to_avg_glove "cow gene unknown" storeA 2 = Ok [(1 # 2)%Q; (1 # 2)%Q] /\
  text_to_avg_glove "xyz123" storeA 2 = Ok [0%Q; 0%Q].
Proof.
  split; [|split; [|split]].
  - intros H. by rewrite text_to_avg_glove_hits, H.
  - intros d Hne Hall. rewrite text_to_avg_glove_hits.
    destruct (hits text store) as [|v vs]; [done|].
    by apply mean_axis0_spec.
  - vm_compute. reflexivity.
  - vm_compute. reflexivity.
Qed.

Lemma text_to_avg_glove_mean_witness :
  text_to_avg_glove "xyz123 qtl" storeA 7 = Ok (replicate 7 0%Q) /\
  exists v, text_to_avg_glove "cow gene unknown" storeA 7 = Ok v /\ length v = 2%nat /\
    forall j, (j < 2)%nat ->
      (nth j v 0 == column_mean (hits "cow gene unknown" storeA) j)%Q.
Proof.
  split.
  - apply (proj1 (text_to_avg_glove_mean "xyz123 qtl" storeA 7)).
    vm_compute. reflexivity.
  - apply (proj1 (proj2 (text_to_avg_glove_mean "cow gene unknown" storeA 7)) 2%nat).
    + vm_compute. discriminate.
    + vm_compute. repeat constructor.
Defined.

(** ** GloVe loading *)

Section GloveProps.

Variable float_of_string : string -> option Q.

Lemma np_array_Ok (fields : list string) (v : list Q) :
  Forall2 (fun s q => float_of_string s = Some q) fields v ->
  np_array float_of_string fields = Ok v.
Proof.
  induction 1 as [|s q fields v Hs _ IH]; [done|].
  unfold np_array in *. simpl. by rewrite Hs, IH.
Qed.

Lemma np_array_Raise (fields : list string) (s : string) :
  s ∈ fields -> float_of_string s = None ->
  np_array float_of_string fields = Raise ValueError.
Proof.
  intros Hin Hs. induction Hin as [s fields|s s' fields Hin IH].
  - unfold np_array. simpl. by rewrite Hs.
  - unfold np_array in *. simpl. rewrite IH by done.
    by destruct (float_of_string s').
Qed.

Lemma load_lines_entries (lines : list string) (entries : list (string * list Q))
    (m : gmap string (list Q)) :
  Forall2 (line_entry float_of_string) lines entries ->
  load_lines float_of_string lines m
  = Ok (fold_left (fun m e => <[e.1 := e.2]> m) entries m).
Proof.
  intros H. revert m.
  induction H as [|line e lines entries (fields & Hsplit & Hnum) _ IH]; intros m.
  - done.
  - simpl. rewrite Hsplit. simpl. rewrite drop_0.
    rewrite (np_array_Ok _ _ Hnum). simpl. apply IH.
Qed.

Lemma load_lines_bad (lines : list string) (m : gmap string (list Q)) :
  Exists (line_bad float_of_string) lines ->
  exists e, load_lines float_of_string lines m = Raise e /\
    (e = IndexError \/ e = ValueError).
Proof.
  intros H. revert m. induction lines as [|line rest IH]; intros m.
  - by apply Exists_nil in H.
  - simpl. destruct (Py.split (Py.strip line)) as [|word fields] eqn:Hsplit.
    + exists IndexError. by split; [|left].
    + simpl. rewrite drop_0.
      destruct (np_array float_of_string fields) as [v|e] eqn:Hv.
      * simpl. apply IH. apply Exists_cons in H as [Hbad|H]; [|done].
        destruct Hbad as [Hnil|(s & Hin & Hs)]; [congruence|].
        rewrite Hsplit in Hin. simpl in Hin. rewrite drop_0 in Hin.
        rewrite (np_array_Raise _ _ Hin Hs) in Hv. discriminate.
      * simpl. exists e. split; [done|].
        clear -Hv. revert e Hv. unfold np_array.
        induction fields as [|s fields IHf]; intros e Hv; [discriminate|].
        simpl in Hv. destruct (float_of_string s).
        -- simpl in Hv. destruct (Py.mapM _ fields) eqn:E; [discriminate|].
           simpl in Hv. inversion Hv; subst. by eapply IHf.
        -- simpl in Hv. inversion Hv. by right.
Qed.

Lemma load_lines_first_bad (good : list string) (entries : list (string * list Q))
    (line : string) (rest : list string) (m : gmap string (list Q)) :
  Forall2 (line_entry float_of_string) good entries ->
  (Py.split (Py.strip line) = [] ->
   load_lines float_of_string (good ++ line :: rest) m = Raise IndexError) /\
  (forall w fields s,
     Py.split (Py.strip line) = w :: fields ->
     s ∈ fields -> float_of_string s = None ->
     load_lines float_of_string (good ++ line :: rest) m = Raise ValueError).
Proof.
  intros H. revert m.
  induction H as [|l e good entries (fields & Hsplit & Hnum) _ IH]; intros m.
  - split.
    + intros Hnil. simpl. by rewrite Hnil.
    + intros w fields s Hsplit Hin Hs. simpl. rewrite Hsplit. simpl.
      rewrite drop_0. by rewrite (np_array_Raise _ _ Hin Hs).
  - cbn [app load_lines]. rewrite Hsplit. simpl. rewrite drop_0.
    rewrite (np_array_Ok _ _ Hnum). simpl. apply IH.
Qed.

End GloveProps.

Lemma fold_insert_list_to_map (entries : list (string * list Q)) :
  fold_left (fun (m : gmap string (list Q)) e => <[e.1 := e.2]> m) entries ∅
  = list_to_map (reverse entries).
Proof.
  unfold list_to_map. generalize (∅ : gmap string (list Q)).
  induction entries as [|e entries IH]; intros m; [done|].
  simpl. by rewrite IH, reverse_cons, foldr_app.
Qed.

(** C4, as the code has it: the load stops with an exception exactly on a
    blank line ([IndexError]) or on a field after the first that is not a
    number ([ValueError]), the first such line of the file deciding which;
    it counts no fields and compares no dimensions.  When every line is a
    token followed by numbers, it returns the store that maps each token to
    the vector of its last line, so that with [D] numbers on every line
    every stored vector has dimension [D]. *)
Theorem load_glove_embeddings_lines (float_of_string : string -> option Q)
    (file : list string) :
  (forall entries, Forall2 (line_entry float_of_string) file entries ->
     load_glove_embeddings float_of_string file = Ok (list_to_map (reverse entries)) /\
     (forall w, is_Some ((list_to_map (reverse entries) : gmap string (list Q)) !! w)
                <-> w ∈ entries.*1) /\
     (forall D, Forall (fun e => length e.2 = D) entries ->
        forall w v, (list_to_map (reverse entries) : gmap string (list Q)) !! w = Some v ->
                    length v = D)) /\
  (Exists (line_bad float_of_string) file ->
     exists e, load_glove_embeddings float_of_string file = Raise e /\
       (e = IndexError \/ e = ValueError)) /\
  (forall good entries line rest,
     file = good ++ line :: rest ->
     Forall2 (line_entry float_of_string) good entries ->
     (Py.split (Py.strip line) = [] ->
      load_glove_embeddings float_of_string file = Raise IndexError) /\
     (forall w fields s,
        Py.split (Py.strip line) = w :: fields ->
        s ∈ fields -> float_of_string s = None ->
        load_glove_embeddings float_of_string file = Raise ValueError)).
Proof.
  split; [|split].
  - intros entries H. split; [|split].
    + unfold load_glove_embeddings.
      by rewrite (load_lines_entries _ _ _ _ H), fold_insert_list_to_map.
    + intros w. rewrite <- elem_of_dom, dom_list_to_map_L, elem_of_list_to_set.
      by rewrite fmap_reverse, elem_of_reverse.
    + intros D HD w v Hw. apply elem_of_list_to_map_2 in Hw.
      rewrite elem_of_reverse in Hw. rewrite Forall_forall in HD.
      exact (HD (w, v) Hw).
  - apply load_lines_bad.
  - intros good entries line rest -> Hgood. unfold load_glove_embeddings.
    by apply load_lines_first_bad with entries.
Qed.

Lemma load_glove_embeddings_lines_witness :
  load_glove_embeddings Decimal.parse ["cow 1 0"; " gene 0 1.5 "]
  = Ok (list_to_map (reverse [("cow", [1%Q; 0%Q]); ("gene", [0%Q; (1 + 5 / 10)%Q])])) /\
  (exists e, load_glove_embeddings Decimal.parse ["cow 1 0"; "gene 0 x"] = Raise e /\
     (e = IndexError \/ e = ValueError)) /\
  load_glove_embeddings Decimal.parse ["cow 1 0"; "  "; "gene 0 x"] = Raise IndexError /\
  load_glove_embeddings Decimal.parse ["cow 1 0"; "gene 0 x"; "  "] = Raise ValueError.
Proof.
  assert (Forall2 (line_entry Decimal.parse) ["cow 1 0"] [("cow", [1%Q; 0%Q])]) as Hgood.
  { repeat constructor. exists ["1"; "0"].
    split; [vm_compute; reflexivity|]. repeat constructor. }
  split; [|split; [|split]].
  - apply (proj1 (load_glove_embeddings_lines Decimal.parse
                    ["cow 1 0"; " gene 0 1.5 "])).
    repeat constructor.
    + exists ["1"; "0"]. split; [vm_compute; reflexivity|]. repeat constructor.
    + exists ["0"; "1.5"]. split; [vm_compute; reflexivity|]. repeat constructor.
  - apply (proj1 (proj2 (load_glove_embeddings_lines Decimal.parse
                           ["cow 1 0"; "gene 0 x"]))).
    apply Exists_cons_tl, Exists_cons_hd. right. exists "x".
    split; [vm_compute|reflexivity]. right. left.
  - refine (proj1 (proj2 (proj2 (load_glove_embeddings_lines Decimal.parse
                                   ["cow 1 0"; "  "; "gene 0 x"]))
                     ["cow 1 0"] _ "  " ["gene 0 x"] eq_refl Hgood) _).
    vm_compute. reflexivity.
  - refine (proj2 (proj2 (proj2 (load_glove_embeddings_lines Decimal.parse
                                   ["cow 1 0"; "gene 0 x"; "  "]))
                     ["cow 1 0"] _ "gene 0 x" ["  "] eq_refl Hgood)
              "gene" ["0"; "x"] "x" _ _ _).
    + vm_compute. reflexivity.
    + right. left.
    + reflexivity.
Defined.

(** C4, counterexample: a file whose second line has fewer fields than the
    first loads without any error, into vectors of different dimensions. *)
Lemma load_glove_embeddings_ragged :
  load_glove_embeddings Decimal.parse ["cow 1 0"; "gene 1"]
  = Ok (<["gene" := [1%Q]]> (<["cow" := [1%Q; 0%Q]]> ∅)).
Proof. vm_compute. reflexivity. Qed.

(** ** Dataset builder *)

Section DatasetProps.

Variable subword_ids : string -> list Z.
Variable pad_token_id : Z.

Lemma encode_length (L : nat) (text : string) :
  length (encode subword_ids pad_token_id L text).1 = L /\
  length (encode subword_ids pad_token_id L text).2 = L.
Proof.
  unfold encode. simpl.
  rewrite !length_app, !length_replicate, length_take. lia.
Qed.

Lemma encode_lookup (L : nat) (text : string) (j : nat) :
  let real := (L `min` length (subword_ids text))%nat in
  ((j < real)%nat ->
     (encode subword_ids pad_token_id L text).1 !! j = subword_ids text !! j /\
     (encode subword_ids pad_token_id L text).2 !! j = Some 1%Z) /\
  ((real <= j < L)%nat ->
     (encode subword_ids pad_token_id L text).1 !! j = Some pad_token_id /\
     (encode subword_ids pad_token_id L text).2 !! j = Some 0%Z).
Proof.
  unfold encode. simpl. split; intros Hj.
  - rewrite !lookup_app_l by (rewrite ?length_replicate, length_take; lia).
    split; [apply lookup_take_lt; lia|].
    apply lookup_replicate_2. rewrite length_take. lia.
  - rewrite !lookup_app_r by (rewrite ?length_replicate, length_take; lia).
    rewrite length_replicate.
    split; apply lookup_replicate_2; rewrite length_take; lia.
Qed.

Lemma init_inv texts labels store L D ds :
  BertGloveDataset_init subword_ids pad_token_id texts labels store L D = Ok ds ->
  exists embs,
    Py.mapM (fun t => text_to_avg_glove t store D) texts = Ok embs /\
    ds = {| ds_texts := texts; ds_labels := labels; ds_glove_dim := D;
            ds_glove_embs := embs;
            ds_input_ids := map fst (map (encode subword_ids pad_token_id L) texts);
            ds_attention_mask := map snd (map (encode subword_ids pad_token_id L) texts) |}.
Proof.
  unfold BertGloveDataset_init. intros H.
  apply bind_Ok in H as (embs & Hembs & H). inversion H. eauto.
Qed.

Lemma init_labels texts labels store L D :
  BertGloveDataset_init subword_ids pad_token_id texts labels store L D
  = match BertGloveDataset_init subword_ids pad_token_id texts None store L D with
    | Ok ds0 => Ok {| ds_texts := ds_texts ds0; ds_labels := labels;
                      ds_glove_dim := ds_glove_dim ds0;
                      ds_glove_embs := ds_glove_embs ds0;
                      ds_input_ids := ds_input_ids ds0;
                      ds_attention_mask := ds_attention_mask ds0 |}
    | Raise e => Raise e
    end.
Proof. unfold BertGloveDataset_init. by destruct (Py.mapM _ texts). Qed.

Lemma getitem_shape texts labels store L D ds idx item :
  BertGloveDataset_init subword_ids pad_token_id texts labels store L D = Ok ds ->
  BertGloveDataset_getitem ds idx = Ok item ->
  length (item_input_ids item) = L /\ length (item_attention_mask item) = L.
Proof.
  intros Hinit Hget. apply init_inv in Hinit as (embs & _ & ->).
  unfold BertGloveDataset_getitem in Hget. simpl in Hget.
  apply bind_Ok in Hget as (ids & Hids & Hget).
  apply bind_Ok in Hget as (mask & Hmask & Hget).
  apply bind_Ok in Hget as (g & _ & Hget).
  apply bind_Ok in Hget as (l & _ & Hget). inversion Hget; subst; simpl.
  apply index_elem_of in Hids, Hmask.
  apply list_elem_of_fmap in Hids as ([a b] & -> & Ha).
  apply list_elem_of_fmap in Hmask as ([a' b'] & -> & Hb).
  apply list_elem_of_fmap in Ha as (t & Heq & _).
  apply list_elem_of_fmap in Hb as (t' & Heq' & _).
  rewrite Heq, Heq'. split; apply encode_length.
Qed.

Lemma getitem_nat texts labels store L D ds (i : nat) text :
  BertGloveDataset_init subword_ids pad_token_id texts labels store L D = Ok ds ->
  texts !! i = Some text ->
  exists emb,
    ds_glove_embs ds !! i = Some emb /\
    text_to_avg_glove text store D = Ok emb /\
    BertGloveDataset_getitem ds (Z.of_nat i)
    = (l ← match labels with
           | Some ls => l ← Py.index ls (Z.of_nat i); mret (Some l)
           | None => mret None
           end;
       mret {| item_input_ids := (encode subword_ids pad_token_id L text).1;
               item_attention_mask := (encode subword_ids pad_token_id L text).2;
               item_glove_emb := emb;
               item_labels := l |}).
Proof.
  intros Hinit Ht. apply init_inv in Hinit as (embs & Hembs & ->).
  destruct (mapM_lookup _ _ _ _ _ Hembs Ht) as (emb & Hemb & Hglove).
  exists emb. split; [done|]. split; [done|].
  unfold BertGloveDataset_getitem. simpl. fmapify.
  rewrite (index_nat (fst <$> (encode subword_ids pad_token_id L <$> texts)) i
             (encode subword_ids pad_token_id L text).1)
    by (by rewrite !list_lookup_fmap, Ht).
  rewrite (index_nat (snd <$> (encode subword_ids pad_token_id L <$> texts)) i
             (encode subword_ids pad_token_id L text).2)
    by (by rewrite !list_lookup_fmap, Ht).
  by rewrite (index_nat embs i emb).
Qed.

End DatasetProps.

(** C5: every example the dataset produces has [input_ids] and
    [attention_mask] of length exactly [max_length], whatever the length of
    its text; the example of each text is produced, its ids are the text's
    first [max_length] token ids followed by the padding id, and its mask
    is 1 on the token ids and 0 on the padding. *)
Theorem encoded_example_shape (subword_ids : string -> list Z) (pad_token_id : Z)
    (texts : list string) (labels : option (list Z))
    (store : gmap string (list Q)) (max_length glove_dim : nat)
    (ds : BertGloveDataset) :
  BertGloveDataset_init subword_ids pad_token_id texts labels store
                        max_length glove_dim = Ok ds ->
  (forall idx item, BertGloveDataset_getitem ds idx = Ok item ->
     length (item_input_ids item) = max_length /\
     length (item_attention_mask item) = max_length) /\
  (forall (i : nat) text, texts !! i = Some text ->
     (forall ls, labels = Some ls -> (i < length ls)%nat) ->
     exists item, BertGloveDataset_getitem ds (Z.of_nat i) = Ok item /\
       length (item_input_ids item) = max_length /\
       length (item_attention_mask item) = max_length /\
       forall j : nat,
         let real := (max_length `min` length (subword_ids text))%nat in
         ((j < real)%nat ->
            item_input_ids item !! j = subword_ids text !! j /\
            item_attention_mask item !! j = Some 1%Z) /\
         ((real <= j < max_length)%nat ->
            item_input_ids item !! j = Some pad_token_id /\
            item_attention_mask item !! j = Some 0%Z)).
Proof.
  intros Hinit. split.
  - intros idx item. by apply getitem_shape with (1 := Hinit).
  - intros i text Ht Hls.
    destruct (getitem_nat _ _ _ _ _ _ _ _ _ _ Hinit Ht) as (emb & _ & _ & Hget).
    assert (exists l, match labels with
                      | Some ls => l ← Py.index ls (Z.of_nat i); mret (Some l)
                      | None => mret None
                      end = Ok l) as [l Hl].
    { destruct labels as [ls|]; [|by eexists].
      destruct (lookup_lt_is_Some_2 ls i (Hls ls eq_refl)) as [y Hy].
      exists (Some y). by rewrite (index_nat ls i y Hy). }
    rewrite Hl in Hget. eexists. split; [exact Hget|].
    cbn [item_input_ids item_attention_mask].
    split; [apply encode_length|]. split; [apply encode_length|].
    intros j. apply encode_lookup.
Qed.

Lemma encoded_example_shape_witness :
  exists item,
    BertGloveDataset_getitem
      {| ds_texts := ["a"; "cow gene"]; ds_labels := Some [0%Z; 1%Z];
         ds_glove_dim := 2;
         ds_glove_embs := [[0%Q; 0%Q]; [(1 # 2)%Q; (1 # 2)%Q]];
         ds_input_ids := [[97; 0; 0; 0]%Z; [99; 111; 119; 32]%Z];
         ds_attention_mask := [[1; 0; 0; 0]%Z; [1; 1; 1; 1]%Z] |} (Z.of_nat 1)
    = Ok item /\
    length (item_input_ids item) = 4%nat /\
    length (item_attention_mask item) = 4%nat /\
    forall j : nat,
      let real := (4 `min` length (char_ids "cow gene"))%nat in
      ((j < real)%nat ->
         item_input_ids item !! j = char_ids "cow gene" !! j /\
         item_attention_mask item !! j = Some 1%Z) /\
      ((real <= j < 4)%nat ->
         item_input_ids item !! j = Some 0%Z /\
         item_attention_mask item !! j = Some 0%Z).
Proof.
  apply (proj2 (encoded_example_shape char_ids 0 ["a"; "cow gene"]
                  (Some [0%Z; 1%Z]) storeA 4 2 _ eq_refl) 1%nat "cow gene").
  - reflexivity.
  - intros ls [= <-]. simpl. lia.
Defined.

(** C8, as the code has it: building the dataset never looks at the length
    of the label sequence, which is stored as given.  Without labels every
    example is produced with no label; with labels [ls], example [i] has
    label [ls[i]], and asking for an example beyond the labels raises
    [IndexError]. *)
Theorem dataset_labels_unchecked (subword_ids : string -> list Z) (pad_token_id : Z)
    (texts : list string) (labels : option (list Z))
    (store : gmap string (list Q)) (max_length glove_dim : nat) :
  BertGloveDataset_init subword_ids pad_token_id texts labels store
                        max_length glove_dim
  = match BertGloveDataset_init subword_ids pad_token_id texts None store
                                max_length glove_dim with
    | Ok ds0 => Ok {| ds_texts := ds_texts ds0; ds_labels := labels;
                      ds_glove_dim := ds_glove_dim ds0;
                      ds_glove_embs := ds_glove_embs ds0;
                      ds_input_ids := ds_input_ids ds0;
                      ds_attention_mask := ds_attention_mask ds0 |}
    | Raise e => Raise e
    end /\
  (forall ds, BertGloveDataset_init subword_ids pad_token_id texts None store
                                    max_length glove_dim = Ok ds ->
     (forall idx item, BertGloveDataset_getitem ds idx = Ok item ->
                       item_labels item = None) /\
     (forall (i : nat) text, texts !! i = Some text ->
        exists item, BertGloveDataset_getitem ds (Z.of_nat i) = Ok item /\
                     item_labels item = None)) /\
  (forall ls ds, BertGloveDataset_init subword_ids pad_token_id texts (Some ls) store
                                       max_length glove_dim = Ok ds ->
     forall (i : nat) text, texts !! i = Some text ->
       match ls !! i with
       | Some l => exists item, BertGloveDataset_getitem ds (Z.of_nat i) = Ok item /\
                                item_labels item = Some l
       | None => BertGloveDataset_getitem ds (Z.of_nat i) = Raise IndexError
       end).
Proof.
  split; [|split].
  - apply init_labels.
  - intros ds Hinit. split.
    + intros idx item Hget. apply init_inv in Hinit as (embs & _ & ->).
      unfold BertGloveDataset_getitem in Hget. simpl in Hget.
      apply bind_Ok in Hget as (ids & _ & Hget).
      apply bind_Ok in Hget as (mask & _ & Hget).
      apply bind_Ok in Hget as (g & _ & Hget). by inversion Hget.
    + intros i text Ht.
      destruct (getitem_nat _ _ _ _ _ _ _ _ _ _ Hinit Ht) as (emb & _ & _ & Hget).
      eexists. split; [exact Hget|done].
  - intros ls ds Hinit i text Ht.
    destruct (getitem_nat _ _ _ _ _ _ _ _ _ _ Hinit Ht) as (emb & _ & _ & Hget).
    rewrite Hget. destruct (ls !! i) as [l|] eqn:Hl.
    + rewrite (index_nat ls i l Hl). eexists. split; [reflexivity|done].
    + apply lookup_ge_None in Hl. unfold Py.index.
      destruct (Z.ltb_spec (Z.of_nat i) 0); [lia|].
      destruct (Z.ltb_spec (Z.of_nat i) (Z.of_nat (length ls))); [lia|].
      by rewrite andb_false_r.
Qed.

Lemma dataset_labels_unchecked_witness :
  BertGloveDataset_getitem
    {| ds_texts := ["a"; "cow gene"]; ds_labels := Some [1%Z];
       ds_glove_dim := 2;
       ds_glove_embs := [[0%Q; 0%Q]; [(1 # 2)%Q; (1 # 2)%Q]];
       ds_input_ids := [[97; 0; 0; 0]%Z; [99; 111; 119; 32]%Z];
       ds_attention_mask := [[1; 0; 0; 0]%Z; [1; 1; 1; 1]%Z] |} (Z.of_nat 1)
  = Raise IndexError.
Proof.
  exact (proj2 (proj2 (dataset_labels_unchecked char_ids 0 ["a"; "cow gene"]
                         None storeA 4 2))
           [1%Z] _ eq_refl 1%nat "cow gene" eq_refl).
Defined.

(** C8, counterexample: one text and two labels; the dataset is built. *)
Lemma dataset_init_length_mismatch :
  BertGloveDataset_init char_ids 0 ["a"] (Some [0%Z; 1%Z]) storeA 4 2
  = Ok {| ds_texts := ["a"]; ds_labels := Some [0%Z; 1%Z]; ds_glove_dim := 2;
          ds_glove_embs := [[0%Q; 0%Q]];
          ds_input_ids := [[97; 0; 0; 0]%Z];
          ds_attention_mask := [[1; 0; 0; 0]%Z] |}.
Proof. vm_compute. reflexivity. Qed.

(** ** Batch collation *)

Lemma stack_Ok {A B} (f : A -> list B) (x : A) (rest : list A) :
  Forall (fun y => length (f y) = length (f x)) rest ->
  Torch.stack (map f (x :: rest)) = Ok (map f (x :: rest)).
Proof.
  intros H. simpl.
  assert (forallb (fun u => (length u =? length (f x))%nat) (map f rest) = true) as ->;
    [|done].
  apply forallb_forall. intros u Hu. apply in_map_iff in Hu as (y & <- & Hy).
  apply Nat.eqb_eq. rewrite Forall_forall in H. apply H. by apply list_elem_of_In.
Qed.

Lemma get_labels_all (batch : list Item) (ls : list Z) :
  map item_labels batch = map Some ls -> Py.mapM get_labels batch = Ok ls.
Proof.
  revert ls. induction batch as [|x batch IH]; intros [|l ls] H; try done.
  simpl in H. injection H as Hx Hrest. simpl.
  rewrite (IH ls Hrest). unfold get_labels. by rewrite Hx.
Qed.

Lemma get_labels_missing (batch : list Item) :
  Exists (fun y => item_labels y = None) batch ->
  Py.mapM get_labels batch = Raise KeyError.
Proof.
  induction 1 as [x batch Hx|x batch _ IH]; simpl.
  - unfold get_labels. by rewrite Hx.
  - rewrite IH. unfold get_labels. by destruct (item_labels x).
Qed.

(** C6, as the code has it: the first example of the batch alone decides
    about the labels.  When it has none, collation succeeds and the entry
    [labels] of the batch is [None], whatever the other examples carry;
    when all examples have a label, the batch has the labels stacked in
    order; when the first example has a label and another has none,
    collation raises [KeyError]. *)
Theorem collate_fn_first_decides (x : Item) (rest : list Item) :
  Forall (same_shape x) rest ->
  (item_labels x = None ->
     collate_fn (x :: rest)
     = Ok {| batch_input_ids := map item_input_ids (x :: rest);
             batch_attention_mask := map item_attention_mask (x :: rest);
             batch_glove_emb := map item_glove_emb (x :: rest);
             batch_labels := None |}) /\
  (forall ls, map item_labels (x :: rest) = map Some ls ->
     collate_fn (x :: rest)
     = Ok {| batch_input_ids := map item_input_ids (x :: rest);
             batch_attention_mask := map item_attention_mask (x :: rest);
             batch_glove_emb := map item_glove_emb (x :: rest);
             batch_labels := Some ls |}) /\
  (is_Some (item_labels x) -> Exists (fun y => item_labels y = None) rest ->
     collate_fn (x :: rest) = Raise KeyError).
Proof.
  intros Hshape. unfold collate_fn.
  rewrite (stack_Ok item_input_ids), (stack_Ok item_attention_mask),
    (stack_Ok item_glove_emb);
    try (eapply Forall_impl; [exact Hshape|]; intros y (? & ? & ?); done).
  rewrite index_0. cbn [mbind result_bind]. split; [|split].
  - intros Hx. rewrite Hx, bool_decide_false by (by intros [? ?]). reflexivity.
  - intros ls Hls. destruct ls as [|l ls]; [done|].
    assert (item_labels x = Some l) as Hx by (simpl in Hls; congruence).
    rewrite Hx, bool_decide_true by eauto.
    by rewrite (get_labels_all (x :: rest) (l :: ls) Hls).
  - intros [l Hx] Hex. rewrite Hx, bool_decide_true by eauto.
    by rewrite (get_labels_missing (x :: rest)) by (by right).
Qed.

Lemma collate_fn_first_decides_witness :
  collate_fn [ {| item_input_ids := [97; 0]%Z; item_attention_mask := [1; 0]%Z;
                  item_glove_emb := [0%Q]; item_labels := Some 1%Z |};
               {| item_input_ids := [98; 99]%Z; item_attention_mask := [1; 1]%Z;
                  item_glove_emb := [1%Q]; item_labels := None |} ]
  = Raise KeyError /\
  collate_fn [ {| item_input_ids := [97; 0]%Z; item_attention_mask := [1; 0]%Z;
                  item_glove_emb := [0%Q]; item_labels := Some 1%Z |};
               {| item_input_ids := [98; 99]%Z; item_attention_mask := [1; 1]%Z;
                  item_glove_emb := [1%Q]; item_labels := Some 0%Z |} ]
  = Ok {| batch_input_ids := [[97; 0]; [98; 99]]%Z;
          batch_attention_mask := [[1; 0]; [1; 1]]%Z;
          batch_glove_emb := [[0%Q]; [1%Q]];
          batch_labels := Some [1; 0]%Z |}.
Proof.
  split.
  - apply collate_fn_first_decides.
    + repeat constructor.
    + by eexists.
    + repeat constructor.
  - refine (proj1 (proj2 (collate_fn_first_decides
               {| item_input_ids := [97; 0]%Z; item_attention_mask := [1; 0]%Z;
                  item_glove_emb := [0%Q]; item_labels := Some 1%Z |}
               [ {| item_input_ids := [98; 99]%Z; item_attention_mask := [1; 1]%Z;
                    item_glove_emb := [1%Q]; item_labels := Some 0%Z |} ] _))
             [1; 0]%Z eq_refl).
    repeat constructor.
Defined.

(** C6, counterexample: the first example has no label and the second has
    one; collation succeeds, with [labels] equal to [None]. *)
Lemma collate_fn_mixed_batch :
  collate_fn [ {| item_input_ids := [97; 0]%Z; item_attention_mask := [1; 0]%Z;
                  item_glove_emb := [0%Q]; item_labels := None |};
               {| item_input_ids := [98; 99]%Z; item_attention_mask := [1; 1]%Z;
                  item_glove_emb := [1%Q]; item_labels := Some 1%Z |} ]
  = Ok {| batch_input_ids := [[97; 0]; [98; 99]]%Z;
          batch_attention_mask := [[1; 0]; [1; 1]]%Z;
          batch_glove_emb := [[0%Q]; [1%Q]];
          batch_labels := None |}.
Proof. reflexivity. Qed.

(** ** The hybrid classifier *)

Lemma Linear_forward_Ok (l : Linear) (x : list (list Q)) :
  Forall (fun row => length row = in_features l) x ->
  exists lg, Linear_forward l x = Ok lg /\ length lg = length x /\
    Forall (fun row => length row = out_features l) lg.
Proof.
  intros H. unfold Linear_forward.
  assert (forallb (fun row => (length row =? in_features l)%nat) x = true) as ->.
  { apply forallb_forall. intros row Hrow. apply Nat.eqb_eq.
    rewrite Forall_forall in H. apply H. by apply list_elem_of_In. }
  eexists. split; [reflexivity|]. split; [by rewrite length_map|].
  fmapify. apply Forall_fmap, Forall_true. intros row. simpl.
  by rewrite length_fmap, length_seq.
Qed.

Lemma Linear_forward_Raise (l : Linear) (x : list (list Q)) (k : nat) :
  Forall (fun row => length row = k) x -> x <> [] -> k <> in_features l ->
  Linear_forward l x = Raise RuntimeError.
Proof.
  intros Hx Hne Hk. unfold Linear_forward.
  destruct Hx as [|row x Hrow _]; [done|]. simpl.
  by destruct (Nat.eqb_spec (length row) (in_features l)); [lia|].
Qed.

Lemma Linear_forward_shape (l : Linear) (x lg : list (list Q)) :
  Linear_forward l x = Ok lg ->
  length lg = length x /\ Forall (fun row => length row = out_features l) lg.
Proof.
  unfold Linear_forward. destruct (forallb _ x); [|discriminate].
  intros [= <-]. split; [by rewrite length_map|].
  fmapify. apply Forall_fmap, Forall_true. intros row. simpl.
  by rewrite length_fmap, length_seq.
Qed.

Lemma Dropout_shape (p : Q) (t : bool) (k : nat -> nat -> bool)
    (x : list (list Q)) (H : nat) :
  Forall (fun row => length row = H) x ->
  length (Dropout p t k x) = length x /\
  Forall (fun row => length row = H) (Dropout p t k x).
Proof.
  intros Hx. unfold Dropout. destruct t; [|done].
  split; [by rewrite length_imap|].
  apply Forall_lookup. intros i row Hrow.
  rewrite list_lookup_imap in Hrow.
  destruct (x !! i) as [r|] eqn:Hr; [|done]. simpl in Hrow.
  injection Hrow as <-. rewrite length_imap.
  by eapply (proj1 (Forall_lookup _ _) Hx).
Qed.

Lemma cat1_shape (a b : list (list Q)) (H D : nat) :
  length a = length b ->
  Forall (fun row => length row = H) a ->
  Forall (fun row => length row = D) b ->
  Torch.cat1 a b = Ok (zip_with app a b) /\
  length (zip_with app a b) = length a /\
  Forall (fun row => length row = (H + D)%nat) (zip_with app a b).
Proof.
  intros Hlen Ha Hb. unfold Torch.cat1.
  rewrite (proj2 (Nat.eqb_eq _ _) Hlen). split; [done|].
  split; [rewrite length_zip_with; lia|].
  clear Hlen. revert b Hb. induction Ha as [|r a Hr _ IH]; intros b Hb; [done|].
  destruct Hb as [|s b Hs Hb]; [done|]. simpl. constructor.
  - rewrite length_app. lia.
  - by apply IH.
Qed.

Section ModelProps.

Variable pooler : list Z -> list Z -> nat -> Q.
Variable log_softmax : list Q -> list Q.

Lemma bert_pooler_output_shape (cfg : BertConfig) (ids mask : list (list Z)) :
  length ids = length mask ->
  exists p, bert_pooler_output pooler cfg ids mask = Ok p /\
    length p = length ids /\
    Forall (fun row => length row = hidden_size cfg) p.
Proof.
  intros H. unfold bert_pooler_output.
  rewrite (proj2 (Nat.eqb_eq _ _) H). eexists. split; [reflexivity|].
  split; [rewrite length_zip_with; lia|].
  apply Forall_lookup. intros i row Hrow.
  rewrite lookup_zip_with in Hrow.
  destruct (ids !! i); [|done]. destruct (mask !! i); [|done].
  simpl in Hrow. injection Hrow as <-. by rewrite length_map, length_seq.
Qed.

(** The labels enter [forward] at the loss only. *)
Lemma forward_factor (self : BertWithGlove) (mode : Mode)
    (ids mask : list (list Z)) (g : option (list (list Q)))
    (labels : option (list Z)) :
  forward pooler log_softmax self mode ids mask g labels
  = (out0 ← forward pooler log_softmax self mode ids mask g None;
     match labels with
     | None => Ok out0
     | Some y =>
         l ← CrossEntropyLoss log_softmax class_weights (logits out0) y;
         Ok {| loss := Some l; logits := logits out0 |}
     end).
Proof.
  unfold forward.
  destruct (bert_pooler_output pooler (config self) ids mask) as [p|e]; [|done].
  cbn [mbind result_bind].
  destruct (Torch.cat1 _ _) as [c|e]; [|done]. cbn [mbind result_bind].
  destruct (Linear_forward (classifier self) c) as [lg|e]; [|done].
  cbn [mbind result_bind mret result_ret logits].
  destruct labels as [y|]; [|done].
  by destruct (CrossEntropyLoss log_softmax class_weights lg y).
Qed.

Lemma forward_logits_shape (self : BertWithGlove) (mode : Mode)
    (ids mask : list (list Z)) (g : option (list (list Q)))
    (labels : option (list Z)) (out : Output) :
  forward pooler log_softmax self mode ids mask g labels = Ok out ->
  length (logits out) = length ids /\
  Forall (fun row => length row = out_features (classifier self)) (logits out).
Proof.
  rewrite forward_factor. intros H. apply bind_Ok in H as (out0 & H0 & H).
  assert (logits out = logits out0) as ->.
  { destruct labels; [|by inversion H].
    apply bind_Ok in H as (l0 & _ & H). by inversion H. }
  clear H. unfold forward in H0.
  apply bind_Ok in H0 as (p & Hp & H0).
  apply bind_Ok in H0 as (c & Hc & H0).
  apply bind_Ok in H0 as (lg & Hlg & H0).
  cbn in H0. inversion H0; subst; simpl.
  apply Linear_forward_shape in Hlg as [Hlen Hrows]. split; [|done].
  rewrite Hlen. unfold Torch.cat1 in Hc.
  destruct (Nat.eqb_spec (length (Dropout (dropout_p self) (training mode) (keep mode) p))
              (length match g with
                      | Some g0 => g0
                      | None => Torch.zeros
                                  (length (Dropout (dropout_p self) (training mode)
                                             (keep mode) p)) 300
                      end)) as [Heq|]; [|discriminate].
  injection Hc as <-. rewrite length_zip_with, <- Heq, Nat.min_id.
  unfold bert_pooler_output in Hp.
  destruct (Nat.eqb_spec (length ids) (length mask)); [|discriminate].
  injection Hp as <-.
  unfold Dropout. destruct (training mode);
    rewrite ?length_imap, length_zip_with; lia.
Qed.

Lemma CrossEntropyLoss_Ok (lg : list (list Q)) (y : list Z) :
  length y = length lg ->
  Forall (fun row => length row = 2%nat) lg ->
  Forall (fun v => v = 0%Z \/ v = 1%Z) y ->
  exists l, CrossEntropyLoss log_softmax class_weights lg y = Ok l.
Proof.
  intros Hlen Hlg Hy. unfold CrossEntropyLoss.
  rewrite (proj2 (Nat.eqb_eq _ _) Hlen). cbn [negb].
  assert (forallb (fun row => (length row =? length class_weights)%nat) lg = true) as ->.
  { apply forallb_forall. intros row Hrow. apply Nat.eqb_eq.
    rewrite Forall_forall in Hlg. apply Hlg. by apply list_elem_of_In. }
  cbn [negb].
  assert (forallb (fun v => (v =? -100)%Z
                            || ((0 <=? v) && (v <? Z.of_nat (length class_weights)))%Z) y
          = true) as ->.
  { apply forallb_forall. intros v Hv. rewrite Forall_forall in Hy.
    destruct (Hy v) as [-> | ->]; [by apply list_elem_of_In|done|done]. }
  cbn [negb]. by eexists.
Qed.

Lemma forward_Ok (cfg : BertConfig) (D : nat) (W : nat -> nat -> Q) (b : nat -> Q)
    (mode : Mode) (ids mask : list (list Z)) (g : list (list Q)) :
  length ids = length mask -> length g = length ids ->
  Forall (fun row => length row = D) g ->
  exists lg,
    forward pooler log_softmax (BertWithGlove_init cfg D W b) mode ids mask (Some g) None
    = Ok {| loss := None; logits := lg |} /\
    length lg = length ids /\
    Forall (fun row => length row = num_labels cfg) lg.
Proof.
  intros Hmask Hg HD. unfold forward.
  change (config (BertWithGlove_init cfg D W b)) with cfg.
  change (dropout_p (BertWithGlove_init cfg D W b)) with (hidden_dropout_prob cfg).
  set (cl := classifier (BertWithGlove_init cfg D W b)).
  destruct (bert_pooler_output_shape cfg ids mask Hmask) as (p & -> & Hlen & Hp).
  cbn [mbind result_bind].
  destruct (Dropout_shape (hidden_dropout_prob cfg) (training mode) (keep mode)
              p (hidden_size cfg) Hp) as [Hdl Hd].
  set (x := Dropout _ _ _ p) in *.
  assert (length x = length g) as Hxg by lia.
  destruct (cat1_shape x g (hidden_size cfg) D Hxg Hd HD) as (-> & Hcl & Hc).
  cbn [mbind result_bind].
  destruct (Linear_forward_Ok cl _ Hc) as (lg & -> & Hll & Hlg).
  exists lg. split; [done|]. split; [lia|done].
Qed.

End ModelProps.

(** C1, the defect: when [glove_emb] is absent the code substitutes zeros of
    dimension 300, not of the configured [glove_dim]; for a model built
    with another [glove_dim] the concatenated rows have [hidden_size + 300]
    entries, which the classifier of [hidden_size + glove_dim] inputs
    rejects: a forward call on a non-empty batch raises. *)
Theorem forward_absent_glove_emb (pooler : list Z -> list Z -> nat -> Q)
    (log_softmax : list Q -> list Q)
    (cfg : BertConfig) (glove_dim : nat) (W : nat -> nat -> Q) (b : nat -> Q)
    (mode : Mode) (ids mask : list (list Z)) (labels : option (list Z)) :
  glove_dim <> 300%nat -> ids <> [] -> length ids = length mask ->
  forward pooler log_softmax (BertWithGlove_init cfg glove_dim W b) mode
          ids mask None labels
  = Raise RuntimeError.
Proof.
  intros HD Hne Hmask. rewrite forward_factor.
  assert (forward pooler log_softmax (BertWithGlove_init cfg glove_dim W b) mode
            ids mask None None = Raise RuntimeError) as ->; [|done].
  unfold forward.
  change (config (BertWithGlove_init cfg glove_dim W b)) with cfg.
  change (dropout_p (BertWithGlove_init cfg glove_dim W b))
    with (hidden_dropout_prob cfg).
  set (cl := classifier (BertWithGlove_init cfg glove_dim W b)).
  destruct (bert_pooler_output_shape pooler cfg ids mask Hmask) as (p & -> & Hlen & Hp).
  cbn [mbind result_bind].
  destruct (Dropout_shape (hidden_dropout_prob cfg) (training mode) (keep mode)
              p (hidden_size cfg) Hp) as [Hdl Hd].
  set (x := Dropout _ _ _ p) in *.
  destruct (cat1_shape x (Torch.zeros (length x) 300) (hidden_size cfg) 300)
    as (-> & Hcl & Hc); [by unfold Torch.zeros; rewrite length_replicate|done| |].
  { apply Forall_replicate. unfold Np.zeros. by rewrite length_replicate. }
  cbn [mbind result_bind].
  rewrite (Linear_forward_Raise cl _ _ Hc); [done| |simpl; lia].
  intros Hnil. rewrite Hnil in Hcl. simpl in Hcl.
  destruct ids; [done|]. simpl in *. lia.
Qed.

Lemma forward_absent_glove_emb_witness :
  forward (fun _ _ k => inject_Z (Z.of_nat k)) (fun row => row)
          (BertWithGlove_init {| hidden_size := 768; num_labels := 2;
                                 hidden_dropout_prob := 1 # 10 |}
                              50 (fun _ _ => 0%Q) (fun _ => 0%Q))
          eval_mode [[101; 102]%Z] [[1; 1]%Z] None None
  = Raise RuntimeError.
Proof. apply forward_absent_glove_emb; [lia|done|reflexivity]. Defined.

(** C7: a forward call computes a loss exactly when labels are supplied.
    With labels the loss is the cross-entropy of the returned logits
    weighted by the per-class weights 1.0 (class 0) and 3.0 (class 1);
    without labels the loss is [None] and the logits are returned all the
    same.  For a binary model and inputs of matching shapes the call
    returns, with logits of shape (batch, 2). *)
Theorem forward_loss_iff_labels (pooler : list Z -> list Z -> nat -> Q)
    (log_softmax : list Q -> list Q)
    (cfg : BertConfig) (glove_dim : nat) (W : nat -> nat -> Q) (b : nat -> Q)
    (mode : Mode) (ids mask : list (list Z))
    (glove_emb : option (list (list Q))) (labels : option (list Z)) :
  let self := BertWithGlove_init cfg glove_dim W b in
  (forall out,
     forward pooler log_softmax self mode ids mask glove_emb labels = Ok out ->
     (is_Some (loss out) <-> is_Some labels) /\
     (labels = None -> loss out = None) /\
     (forall y, labels = Some y ->
        exists l, CrossEntropyLoss log_softmax [1%Q; 3%Q] (logits out) y = Ok l /\
                  loss out = Some l)) /\
  (forall g, glove_emb = Some g -> num_labels cfg = 2%nat ->
     length ids = length mask -> length g = length ids ->
     Forall (fun row => length row = glove_dim) g ->
     (forall y, labels = Some y ->
        length y = length ids /\ Forall (fun v => v = 0%Z \/ v = 1%Z) y) ->
     exists out,
       forward pooler log_softmax self mode ids mask glove_emb labels = Ok out /\
       length (logits out) = length ids /\
       Forall (fun row => length row = 2%nat) (logits out)).
Proof.
  intros self. split.
  - intros out H. rewrite forward_factor in H.
    apply bind_Ok in H as (out0 & H0 & H).
    assert (loss out0 = None) as Hnone.
    { unfold forward in H0.
      apply bind_Ok in H0 as (p & _ & H0). apply bind_Ok in H0 as (c & _ & H0).
      apply bind_Ok in H0 as (lg & _ & H0). cbn in H0. by inversion H0. }
    destruct labels as [y|].
    + apply bind_Ok in H as (l & Hl & H). inversion H; subst; simpl.
      split; [split; eauto|]. split; [done|].
      intros y' [= <-]. exists l. by split.
    + inversion H; subst. rewrite Hnone.
      split; [split; intros [? ?]; done|]. split; [done|]. intros y [=].
  - intros g -> Hnum Hmask Hg HD Hy.
    destruct (forward_Ok pooler log_softmax cfg glove_dim W b mode ids mask g
                Hmask Hg HD) as (lg & H0 & Hlen & Hrows).
    rewrite Hnum in Hrows. rewrite forward_factor. fold self in H0. rewrite H0.
    cbn [mbind result_bind logits]. destruct labels as [y|].
    + destruct (Hy y eq_refl) as [Hyl Hy01].
      destruct (CrossEntropyLoss_Ok log_softmax lg y) as [l ->]; [lia|done|done|].
      cbn [mbind result_bind]. eexists. split; [reflexivity|]. by split.
    + eexists. split; [reflexivity|]. by split.
Qed.

Lemma forward_loss_iff_labels_witness :
  exists out,
    forward (fun _ _ k => inject_Z (Z.of_nat k)) (fun row => row)
            (BertWithGlove_init {| hidden_size := 2; num_labels := 2;
                                   hidden_dropout_prob := 1 # 10 |}
                                1 (fun _ _ => 1%Q) (fun _ => 0%Q))
            eval_mode [[101; 102]%Z] [[1; 1]%Z] (Some [[1 # 2]%Q]) (Some [1%Z])
    = Ok out /\
    length (logits out) = 1%nat /\
    Forall (fun row => length row = 2%nat) (logits out).
Proof.
  apply (proj2 (forward_loss_iff_labels
                  (fun _ _ k => inject_Z (Z.of_nat k)) (fun row => row)
                  {| hidden_size := 2; num_labels := 2; hidden_dropout_prob := 1 # 10 |}
                  1 (fun _ _ => 1%Q) (fun _ => 0%Q)
                  eval_mode [[101; 102]%Z] [[1; 1]%Z] (Some [[1 # 2]%Q]) (Some [1%Z]))
           [[1 # 2]%Q]); try reflexivity.
  - repeat constructor.
  - intros y [= <-]. split; [reflexivity|]. constructor; [by right|constructor].
Defined.

(** ** Inference with placeholder labels *)

Lemma mapM_Ok_map {A B} (f : A -> result B) (g : A -> B) (xs : list A) :
  (forall x, x ∈ xs -> f x = Ok (g x)) -> Py.mapM f xs = Ok (map g xs).
Proof.
  induction xs as [|x xs IH]; intros H; [done|]. simpl.
  rewrite (H x) by left. rewrite IH; [done|].
  intros y Hy. apply H. by right.
Qed.

Lemma chunks_map {A B} (f : A -> B) (fuel n : nat) (xs : list A) :
  chunks fuel n (map f xs) = map (map f) (chunks fuel n xs).
Proof.
  revert xs. induction fuel as [|fuel IH]; intros [|x xs]; try done.
  cbn [chunks map]. fmapify.
  change (f x :: (f <$> xs)) with (f <$> (x :: xs)).
  rewrite <- fmap_take, <- fmap_drop. fmapify.
  change (fmap (M:=list) f) with (map f). by rewrite IH.
Qed.

Lemma chunks_Forall {A} (P : A -> Prop) (fuel n : nat) (xs : list A) :
  Forall P xs -> Forall (Forall P) (chunks fuel n xs).
Proof.
  revert xs. induction fuel as [|fuel IH]; intros [|x xs] H; try by constructor.
  cbn [chunks]. constructor.
  - by apply Forall_take.
  - apply IH. by apply Forall_drop.
Qed.

Lemma get_labels_relabel (l : Z) (batch : list Item) :
  Py.mapM get_labels (map (relabel (Some l)) batch) = Ok (replicate (length batch) l).
Proof.
  induction batch as [|x batch IH]; [done|]. simpl. by rewrite IH.
Qed.

Lemma collate_fn_relabel (l : Z) (batch : list Item) :
  Forall (fun x => item_labels x = None) batch ->
  collate_fn (map (relabel (Some l)) batch)
  = (b ← collate_fn batch;
     Ok {| batch_input_ids := batch_input_ids b;
           batch_attention_mask := batch_attention_mask b;
           batch_glove_emb := batch_glove_emb b;
           batch_labels := Some (replicate (length batch) l) |}) /\
  forall b, collate_fn batch = Ok b ->
    batch_labels b = None /\ length (batch_input_ids b) = length batch.
Proof.
  intros Hnone. unfold collate_fn.
  assert (map item_input_ids (map (relabel (Some l)) batch)
          = map item_input_ids batch) as -> by (by rewrite map_map).
  assert (map item_attention_mask (map (relabel (Some l)) batch)
          = map item_attention_mask batch) as -> by (by rewrite map_map).
  assert (map item_glove_emb (map (relabel (Some l)) batch)
          = map item_glove_emb batch) as -> by (by rewrite map_map).
  destruct batch as [|x batch]; [done|].
  destruct (Torch.stack (map item_input_ids (x :: batch))) as [ids|e] eqn:Hids;
    [|by split; [|intros ? [=]]].
  cbn [mbind result_bind].
  destruct (Torch.stack (map item_attention_mask (x :: batch))) as [mask|e];
    [|by split; [|intros ? [=]]].
  cbn [mbind result_bind].
  destruct (Torch.stack (map item_glove_emb (x :: batch))) as [g|e];
    [|by split; [|intros ? [=]]].
  cbn [mbind result_bind map]. rewrite !index_0. cbn [mbind result_bind].
  cbn [relabel item_labels]. rewrite bool_decide_true by eauto.
  change (relabel (Some l) x :: map (relabel (Some l)) batch)
    with (map (relabel (Some l)) (x :: batch)).
  rewrite get_labels_relabel.
  inversion Hnone as [|? ? Hx _]; subst. rewrite Hx.
  rewrite bool_decide_false by (by intros [? ?]).
  split; [done|]. intros b [= <-]. split; [done|]. cbn.
  unfold Torch.stack in Hids. cbn in Hids.
  destruct (forallb _ _); [|done]. injection Hids as <-.
  cbn. by rewrite length_map.
Qed.

Section PredictProps.

Variable pooler : list Z -> list Z -> nat -> Q.
Variable log_softmax : list Q -> list Q.
Variable softmax : list Q -> list Q.
Variable subword_ids : string -> list Z.
Variable pad_token_id : Z.
Variable model : BertWithGlove.
Hypothesis binary : out_features (classifier model) = 2%nat.

Lemma forward_None_loss (mode : Mode) (ids mask : list (list Z))
    (g : option (list (list Q))) (out : Output) :
  forward pooler log_softmax model mode ids mask g None = Ok out -> loss out = None.
Proof.
  clear binary. unfold forward. intros H.
  apply bind_Ok in H as (p & _ & H). apply bind_Ok in H as (c & _ & H).
  apply bind_Ok in H as (lg & _ & H). cbn in H. by inversion H.
Qed.

Lemma prediction_step_placeholder (batch : list Item) :
  Forall (fun x => item_labels x = None) batch ->
  prediction_step pooler log_softmax model (map (relabel (Some 0%Z)) batch)
  = forward_logits pooler log_softmax model batch.
Proof.
  intros Hnone. unfold prediction_step, forward_logits.
  destruct (collate_fn_relabel 0 batch Hnone) as [-> Hb].
  destruct (collate_fn batch) as [b|e]; [|done].
  destruct (Hb b eq_refl) as [Hlab Hlen].
  cbn [mbind result_bind batch_input_ids batch_attention_mask batch_glove_emb
         batch_labels].
  rewrite (forward_factor _ _ _ _ _ _ _ (Some _)).
  destruct (forward pooler log_softmax model eval_mode (batch_input_ids b)
              (batch_attention_mask b) (Some (batch_glove_emb b)) None)
    as [out0|e] eqn:H0; [|done].
  cbn [mbind result_bind].
  destruct (forward_logits_shape _ _ _ _ _ _ _ _ _ H0) as [Hl Hrows].
  rewrite binary in Hrows.
  destruct (CrossEntropyLoss_Ok log_softmax (logits out0)
              (replicate (length batch) 0%Z)) as [l ->]; [| done | |done].
  - rewrite length_replicate. lia.
  - apply Forall_replicate. by left.
Qed.

Lemma prediction_step_no_labels (batch : list Item) :
  Forall (fun x => item_labels x = None) batch ->
  forall lg, prediction_step pooler log_softmax model batch <> Ok lg.
Proof.
  clear binary. intros Hnone lg H. unfold prediction_step in H.
  destruct (collate_fn_relabel 0 batch Hnone) as [_ Hb].
  apply bind_Ok in H as (b & Hcol & H). destruct (Hb b Hcol) as [Hlab _].
  apply bind_Ok in H as (out & Hout & H). rewrite Hlab in Hout.
  by rewrite (forward_None_loss _ _ _ _ _ Hout) in H.
Qed.

Lemma dataset_items (texts : list string) (store : gmap string (list Q))
    (L D : nat) (ds0 : BertGloveDataset) :
  BertGloveDataset_init subword_ids pad_token_id texts None store L D = Ok ds0 ->
  exists items,
    Forall (fun x => item_labels x = None) items /\
    Py.mapM (fun i => BertGloveDataset_getitem ds0 (Z.of_nat i))
            (seq 0 (BertGloveDataset_len ds0)) = Ok items /\
    forall ds1,
      BertGloveDataset_init subword_ids pad_token_id texts
        (Some (replicate (length texts) 0%Z)) store L D = Ok ds1 ->
      Py.mapM (fun i => BertGloveDataset_getitem ds1 (Z.of_nat i))
              (seq 0 (BertGloveDataset_len ds1))
      = Ok (map (relabel (Some 0%Z)) items).
Proof.
  intros H0.
  set (item_at := fun i : nat =>
         {| item_input_ids := (encode subword_ids pad_token_id L (nth i texts "")).1;
            item_attention_mask := (encode subword_ids pad_token_id L (nth i texts "")).2;
            item_glove_emb := nth i (ds_glove_embs ds0) [];
            item_labels := None |}).
  assert (BertGloveDataset_len ds0 = length texts) as Hlen0.
  { apply init_inv in H0 as (? & _ & ->). done. }
  exists (map item_at (seq 0 (length texts))). split; [|split].
  - fmapify. apply Forall_fmap, Forall_true. done.
  - rewrite Hlen0. apply mapM_Ok_map. intros i Hi.
    apply elem_of_seq in Hi as [_ Hi]. simpl in Hi.
    destruct (lookup_lt_is_Some_2 texts i Hi) as [text Ht].
    destruct (getitem_nat _ _ _ _ _ _ _ _ _ _ H0 Ht) as (emb & Hemb & _ & ->).
    unfold item_at. by rewrite (nth_lookup_Some _ _ _ _ Ht), (nth_lookup_Some _ _ _ _ Hemb).
  - intros ds1 H1.
    assert (BertGloveDataset_len ds1 = length texts /\
            ds_glove_embs ds1 = ds_glove_embs ds0) as [Hlen1 Hembs].
    { apply init_inv in H0 as (e0 & He0 & ->).
      apply init_inv in H1 as (e1 & He1 & ->). simpl. split; [done|]. congruence. }
    rewrite Hlen1, map_map. apply mapM_Ok_map. intros i Hi.
    apply elem_of_seq in Hi as [_ Hi]. simpl in Hi.
    destruct (lookup_lt_is_Some_2 texts i Hi) as [text Ht].
    destruct (getitem_nat _ _ _ _ _ _ _ _ _ _ H1 Ht) as (emb & Hemb & _ & ->).
    rewrite (index_nat (replicate (length texts) 0%Z) i 0%Z)
      by (by apply lookup_replicate_2).
    unfold item_at, relabel. cbn. rewrite Hembs in Hemb.
    by rewrite (nth_lookup_Some _ _ _ _ Ht), (nth_lookup_Some _ _ _ _ Hemb).
Qed.

Lemma predict_placeholder (texts : list string) (store : gmap string (list Q))
    (L D batch_size : nat) :
  (ds ← BertGloveDataset_init subword_ids pad_token_id texts
          (Some (replicate (length texts) 0%Z)) store L D;
   predict pooler log_softmax model batch_size ds)
  = (ds ← BertGloveDataset_init subword_ids pad_token_id texts None store L D;
     forward_logits_dataset pooler log_softmax model batch_size ds).
Proof.
  pose proof (init_labels subword_ids pad_token_id texts
                (Some (replicate (length texts) 0%Z)) store L D) as Hinit.
  destruct (BertGloveDataset_init subword_ids pad_token_id texts None store L D)
    as [ds0|e] eqn:H0; [|by rewrite Hinit].
  destruct (dataset_items texts store L D ds0 H0) as (items & Hnone & Hitems0 & Hitems1).
  rewrite Hinit. specialize (Hitems1 _ Hinit).
  cbn [mbind result_bind]. unfold predict, forward_logits_dataset.
  rewrite Hitems0, Hitems1. cbn [mbind result_bind].
  assert (BertGloveDataset_len
            {| ds_texts := ds_texts ds0;
               ds_labels := Some (replicate (length texts) 0%Z);
               ds_glove_dim := ds_glove_dim ds0;
               ds_glove_embs := ds_glove_embs ds0;
               ds_input_ids := ds_input_ids ds0;
               ds_attention_mask := ds_attention_mask ds0 |}
          = BertGloveDataset_len ds0) as -> by done.
  rewrite chunks_map.
  assert (Py.mapM (prediction_step pooler log_softmax model)
            (map (map (relabel (Some 0%Z)))
                 (chunks (BertGloveDataset_len ds0) batch_size items))
          = Py.mapM (forward_logits pooler log_softmax model)
              (chunks (BertGloveDataset_len ds0) batch_size items)) as ->; [|done].
  pose proof (chunks_Forall _ (BertGloveDataset_len ds0) batch_size items Hnone) as Hall.
  induction Hall as [|c cs Hc _ IH]; [done|].
  cbn [map Py.mapM]. by rewrite prediction_step_placeholder, IH.
Qed.

Lemma predict_no_labels (texts : list string) (store : gmap string (list Q))
    (L D batch_size : nat) (ds : BertGloveDataset) :
  texts <> [] -> (0 < batch_size)%nat ->
  BertGloveDataset_init subword_ids pad_token_id texts None store L D = Ok ds ->
  forall lg, predict pooler log_softmax model batch_size ds <> Ok lg.
Proof.
  clear binary. intros Hne Hbs H0 lg H.
  destruct (dataset_items texts store L D ds H0) as (items & Hnone & Hitems & _).
  unfold predict in H. rewrite Hitems in H. cbn [mbind result_bind] in H.
  apply bind_Ok in H as (outs & Houts & _).
  assert (length items = BertGloveDataset_len ds) as Hil.
  { apply mapM_length in Hitems. by rewrite Hitems, length_seq. }
  assert (BertGloveDataset_len ds = length texts) as Hlen.
  { unfold BertGloveDataset_init in H0. apply bind_Ok in H0 as (? & _ & H0).
    by inversion H0. }
  destruct items as [|x items]; [destruct texts; simpl in *; [done|lia]|].
  destruct (BertGloveDataset_len ds) as [|n]; [simpl in Hil; lia|].
  cbn [chunks Py.mapM] in Houts. apply bind_Ok in Houts as (o & Ho & _).
  revert Ho. apply prediction_step_no_labels. by apply Forall_take.
Qed.

End PredictProps.

(** C10, as the code has it: the logits of a forward call do not depend on
    the labels: two calls that differ in the labels only and both return,
    return the same logits, and a call that returns with labels returns
    without them.  For a binary model and a non-empty list of texts the
    test cell, which builds the dataset with the placeholder label 0 for
    every text, gets, batch by batch, the logits of the model calls without
    labels, and its predicted labels from them.  The prediction itself
    cannot be run on a dataset without labels: it returns no logits. *)
Theorem logits_independent_of_labels (pooler : list Z -> list Z -> nat -> Q)
    (log_softmax softmax : list Q -> list Q)
    (subword_ids : string -> list Z) (pad_token_id : Z) (to_float32 : Q -> Q)
    (model : BertWithGlove) :
  (forall mode ids mask g l1 l2 o1 o2,
     forward pooler log_softmax model mode ids mask g l1 = Ok o1 ->
     forward pooler log_softmax model mode ids mask g l2 = Ok o2 ->
     logits o1 = logits o2) /\
  (forall mode ids mask g l o,
     forward pooler log_softmax model mode ids mask g l = Ok o ->
     forward pooler log_softmax model mode ids mask g None
     = Ok {| loss := None; logits := logits o |}) /\
  (out_features (classifier model) = 2%nat ->
   forall (texts : list string) (store : gmap string (list Q)),
     texts <> [] ->
     let placeholder := Some (replicate (length texts) 0%Z) in
     (ds ← BertGloveDataset_init subword_ids pad_token_id texts placeholder store 256 300;
      predict pooler log_softmax model 8 ds)
     = (ds ← BertGloveDataset_init subword_ids pad_token_id texts None store 256 300;
        forward_logits_dataset pooler log_softmax model 8 ds) /\
     test_labels pooler log_softmax softmax subword_ids pad_token_id to_float32
                 model texts placeholder store
     = (ds ← BertGloveDataset_init subword_ids pad_token_id texts None store 256 300;
        lg ← forward_logits_dataset pooler log_softmax model 8 ds;
        probs ← positive_probs softmax lg;
        mret (threshold_labels probs (to_float32 final_threshold)))) /\
  (forall (texts : list string) (store : gmap string (list Q)) ds,
     texts <> [] ->
     BertGloveDataset_init subword_ids pad_token_id texts None store 256 300 = Ok ds ->
     forall lg, predict pooler log_softmax model 8 ds <> Ok lg).
Proof.
  assert (forall mode ids mask g l o,
            forward pooler log_softmax model mode ids mask g l = Ok o ->
            forward pooler log_softmax model mode ids mask g None
            = Ok {| loss := None; logits := logits o |}) as Hnone.
  { intros mode ids mask g l o H. rewrite forward_factor in H.
    apply bind_Ok in H as (o0 & H0 & H). rewrite H0.
    assert (logits o = logits o0) as ->.
    { destruct l; [|by inversion H].
      apply bind_Ok in H as (l0 & _ & H). by inversion H. }
    f_equal. unfold forward in H0.
    apply bind_Ok in H0 as (p & _ & H0). apply bind_Ok in H0 as (c & _ & H0).
    apply bind_Ok in H0 as (lg & _ & H0). cbn in H0. by inversion H0. }
  split; [|split; [exact Hnone|split]].
  - intros mode ids mask g l1 l2 o1 o2 H1 H2.
    apply Hnone in H1, H2. rewrite H1 in H2. by inversion H2.
  - intros binary texts store _ placeholder.
    pose proof (predict_placeholder pooler log_softmax subword_ids pad_token_id
                  model binary texts store 256 300 8) as Hp.
    split; [exact Hp|]. unfold test_labels. fold placeholder in Hp.
    destruct (BertGloveDataset_init subword_ids pad_token_id texts placeholder
                store 256 300) as [ds1|e1];
      destruct (BertGloveDataset_init subword_ids pad_token_id texts None
                  store 256 300) as [ds0|e0];
      cbn [mbind result_bind] in *; try by rewrite Hp.
    + rewrite <- Hp. done.
    + congruence.
  - intros texts store ds Hne Hinit.
    apply (predict_no_labels pooler log_softmax subword_ids pad_token_id model
             texts store 256 300 8 ds); [done|lia|done].
Qed.

Lemma logits_independent_of_labels_witness :
  let pooler := fun (_ _ : list Z) (k : nat) => inject_Z (Z.of_nat k) in
  let model := BertWithGlove_init {| hidden_size := 2; num_labels := 2;
                                     hidden_dropout_prob := 1 # 10 |}
                                  300 (fun _ _ => 1%Q) (fun _ => 0%Q) in
  (forall o1 o2,
     forward pooler (fun row => row) model eval_mode [[101; 102]%Z] [[1; 1]%Z]
             None (Some [0%Z]) = Ok o1 ->
     forward pooler (fun row => row) model eval_mode [[101; 102]%Z] [[1; 1]%Z]
             None None = Ok o2 ->
     logits o1 = logits o2) /\
  (ds ← BertGloveDataset_init char_ids 0 ["cow gene"; "a"]
          (Some (replicate (length ["cow gene"; "a"]) 0%Z)) ∅ 256 300;
   predict pooler (fun row => row) model 8 ds)
  = (ds ← BertGloveDataset_init char_ids 0 ["cow gene"; "a"] None ∅ 256 300;
     forward_logits_dataset pooler (fun row => row) model 8 ds) /\
  (forall ds,
     BertGloveDataset_init char_ids 0 ["cow gene"; "a"] None ∅ 256 300 = Ok ds ->
     forall lg, predict pooler (fun row => row) model 8 ds <> Ok lg).
Proof.
  intros pooler model.
  destruct (logits_independent_of_labels pooler (fun row => row) (fun row => row)
              char_ids 0 round24 model) as (H1 & _ & H3 & H4).
  split; [|split].
  - intros o1 o2. apply H1.
  - by apply (H3 eq_refl ["cow gene"; "a"] ∅).
  - intros ds. by apply (H4 ["cow gene"; "a"] ∅ ds).
Defined.

(** C10, counterexample: one text, a binary model.  With the placeholder
    label the test cell returns a label; with the labels absent the
    prediction raises instead of yielding the same logits and labels. *)
Lemma test_cell_without_labels :
  let pooler := fun (_ _ : list Z) (k : nat) => inject_Z (Z.of_nat k) in
  let model := BertWithGlove_init {| hidden_size := 2; num_labels := 2;
                                     hidden_dropout_prob := 1 # 10 |}
                                  300 (fun _ _ => 1%Q) (fun _ => 0%Q) in
  test_labels pooler (fun row => row) (fun row => row) char_ids 0 round24 model
              ["a"] (Some [0%Z]) ∅ = Ok [1%Z] /\
  test_labels pooler (fun row => row) (fun row => row) char_ids 0 round24 model
              ["a"] None ∅ = Raise TypeError.
Proof. split; vm_compute; reflexivity. Qed.

(** ** Metrics and the threshold sweep *)

Lemma length_threshold_labels (probs : list Q) (t : Q) :
  length (threshold_labels probs t) = length probs.
Proof. unfold threshold_labels. by rewrite length_map. Qed.

Lemma f1_score_at (probs : list Q) (y : list Z) (t : Q) :
  length probs = length y ->
  Sk.f1_score y (threshold_labels probs t) = Ok (f1_at probs y t).
Proof.
  intros H. unfold f1_at, Sk.f1_score.
  rewrite length_threshold_labels, <- H, Nat.eqb_refl. cbn [negb].
  by destruct (_ =? 0)%Z.
Qed.

Lemma Qgt_bool_true (a b : Q) : Qgt_bool a b = true <-> (b < a)%Q.
Proof.
  unfold Qgt_bool. rewrite negb_true_iff, <- not_true_iff_false, Qle_bool_iff.
  split; [apply Qnot_le_lt | apply Qlt_not_le].
Qed.

Lemma Qgt_bool_false (a b : Q) : Qgt_bool a b = false <-> (a <= b)%Q.
Proof. unfold Qgt_bool. by rewrite negb_false_iff, Qle_bool_iff. Qed.

Lemma sweep_loop_spec (probs : list Q) (y : list Z) (ts : list Q) (bf bt : Q) :
  length probs = length y ->
  exists t' f', sweep_loop probs y ts bf bt = Ok (t', f') /\
    ((Forall (fun u => (f1_at probs y u <= bf)%Q) ts /\ t' = bt /\ f' = bf) \/
     (first_best (f1_at probs y) ts t' /\ f' = f1_at probs y t' /\
      (bf < f1_at probs y t')%Q)).
Proof.
  intros Hlen. revert bf bt. induction ts as [|t ts IH]; intros bf bt.
  - exists bt, bf. split; [done|]. left. by split.
  - cbn [sweep_loop]. rewrite (f1_score_at probs y t Hlen). cbn [mbind result_bind].
    destruct (Qgt_bool (f1_at probs y t) bf) eqn:Hgt.
    + apply Qgt_bool_true in Hgt.
      destruct (IH (f1_at probs y t) t) as (t' & f' & -> & [(Hall & -> & ->)|(Hfb & -> & Hlt)]).
      * exists t, (f1_at probs y t). split; [done|]. right.
        split; [|by split]. exists [], ts. by split.
      * exists t', (f1_at probs y t'). split; [done|]. right.
        split; [|split; [done|by eapply Qlt_trans]].
        destruct Hfb as (pre & post & -> & Hpre & Hpost).
        exists (t :: pre), post. split; [done|]. split; [by constructor|done].
    + apply Qgt_bool_false in Hgt.
      destruct (IH bf bt) as (t' & f' & -> & [(Hall & -> & ->)|(Hfb & -> & Hlt)]).
      * exists bt, bf. split; [done|]. left. split; [by constructor|done].
      * exists t', (f1_at probs y t'). split; [done|]. right.
        split; [|by split].
        destruct Hfb as (pre & post & -> & Hpre & Hpost).
        exists (t :: pre), post. split; [done|]. split; [|done].
        constructor; [|done]. by eapply Qle_lt_trans.
Qed.

Lemma count_nil_r (a b : Z) (y : list Z) : Sk.count a b y [] = 0%Z.
Proof. unfold Sk.count. by destruct y. Qed.

Lemma count_cons (a b y0 p0 : Z) (y p : list Z) :
  Sk.count a b (y0 :: y) (p0 :: p)
  = ((if decide (y0 = a /\ p0 = b) then 1 else 0) + Sk.count a b y p)%Z.
Proof.
  unfold Sk.count. cbn [zip zip_with]. rewrite filter_cons. cbn [fst snd].
  destruct (decide (y0 = a /\ p0 = b)); cbn [length]; lia.
Qed.

Lemma count_nonneg (a b : Z) (y p : list Z) : (0 <= Sk.count a b y p)%Z.
Proof. unfold Sk.count. lia. Qed.

Lemma tp_no_positive (y p : list Z) : 1%Z ∉ p -> Sk.tp y p = 0%Z.
Proof.
  unfold Sk.tp. revert y. induction p as [|p0 p IH]; intros y Hp.
  - apply count_nil_r.
  - destruct y as [|y0 y]; [done|]. rewrite count_cons.
    rewrite IH by (intros ?; apply Hp; by right).
    destruct (decide (y0 = 1%Z /\ p0 = 1%Z)) as [[_ ->]|]; [|done].
    exfalso. apply Hp. by left.
Qed.

Ltac binary_labels :=
  repeat (constructor; [first [by left | by right]|]); try constructor.

(** C3, as the code has it: the sweep always returns.  When some candidate
    has a positive F1, it returns the first candidate at which the F1 is
    greatest, with that F1; when no candidate has a positive F1, it returns
    the initial values, threshold 0.5 and F1 0.  A candidate with no
    predicted positive or no true positive has F1 0, without error. *)
Theorem sweep_first_best (dev_probs : list Q) (y_dev : list Z) (ts : list Q) :
  length dev_probs = length y_dev -> Forall binary_label y_dev ->
  (exists best_t best_f1,
     sweep dev_probs y_dev ts = Ok (best_t, best_f1) /\
     (Exists (fun t => (0 < f1_at dev_probs y_dev t)%Q) ts ->
        first_best (f1_at dev_probs y_dev) ts best_t /\
        best_f1 = f1_at dev_probs y_dev best_t) /\
     (Forall (fun t => (f1_at dev_probs y_dev t <= 0)%Q) ts ->
        best_t = (1 # 2)%Q /\ best_f1 = 0%Q)) /\
  (forall t,
     1%Z ∉ threshold_labels dev_probs t \/
     Sk.tp y_dev (threshold_labels dev_probs t) = 0%Z ->
     exists q, Sk.f1_score y_dev (threshold_labels dev_probs t) = Ok q /\ (q == 0)%Q).
Proof.
  intros Hlen _. split.
  - unfold sweep.
    destruct (sweep_loop_spec dev_probs y_dev ts 0 (1 # 2) Hlen)
      as (t' & f' & Hrun & [(Hall & -> & ->)|(Hfb & -> & Hlt)]).
    + exists (1 # 2)%Q, 0%Q. split; [done|]. split; [|done].
      intros Hex. apply Exists_exists in Hex as (t & Ht & Hpos).
      rewrite Forall_forall in Hall. specialize (Hall t Ht).
      exfalso. by eapply Qlt_not_le.
    + exists t', (f1_at dev_probs y_dev t'). split; [done|]. split; [done|].
      intros Hall. destruct Hfb as (pre & post & -> & _).
      rewrite Forall_forall in Hall.
      exfalso. apply (Qlt_not_le _ _ Hlt), Hall.
      apply elem_of_app. right. by left.
  - intros t Ht.
    assert (Sk.tp y_dev (threshold_labels dev_probs t) = 0%Z) as Htp.
    { destruct Ht as [Ht|Ht]; [by apply tp_no_positive|done]. }
    unfold Sk.f1_score.
    rewrite length_threshold_labels, <- Hlen, Nat.eqb_refl. cbn [negb].
    rewrite Htp. destruct (_ =? 0)%Z; eexists; (split; [reflexivity|]); [done|].
    unfold Qdiv. simpl. apply Qmult_0_l.
Qed.

Lemma sweep_first_best_witness :
  exists best_t best_f1,
    sweep [1 # 10; 6 # 10; 9 # 10; 5 # 100]%Q [0; 1; 1; 0]%Z [2 # 10; 5 # 10; 8 # 10]%Q
    = Ok (best_t, best_f1) /\
    (Exists (fun t => (0 < f1_at [1 # 10; 6 # 10; 9 # 10; 5 # 100]%Q [0; 1; 1; 0]%Z t)%Q)
            [2 # 10; 5 # 10; 8 # 10]%Q ->
     first_best (f1_at [1 # 10; 6 # 10; 9 # 10; 5 # 100]%Q [0; 1; 1; 0]%Z)
                [2 # 10; 5 # 10; 8 # 10]%Q best_t /\
     best_f1 = f1_at [1 # 10; 6 # 10; 9 # 10; 5 # 100]%Q [0; 1; 1; 0]%Z best_t) /\
    (Forall (fun t => (f1_at [1 # 10; 6 # 10; 9 # 10; 5 # 100]%Q [0; 1; 1; 0]%Z t <= 0)%Q)
            [2 # 10; 5 # 10; 8 # 10]%Q ->
     best_t = (1 # 2)%Q /\ best_f1 = 0%Q).
Proof.
  refine (proj1 (sweep_first_best [1 # 10; 6 # 10; 9 # 10; 5 # 100]%Q [0; 1; 1; 0]%Z
                   [2 # 10; 5 # 10; 8 # 10]%Q eq_refl _)).
  binary_labels.
Defined.

(** C3, counterexample: one example, of the negative class.  Every
    candidate of the sweep cell has F1 0; the cell returns 0.5, which is
    not one of its candidates, and not the first of them. *)
Lemma sweep_returns_default :
  best_threshold [9 # 10]%Q [0%Z] = Ok ((1 # 2)%Q, 0%Q) /\
  ~ first_best (f1_at [9 # 10]%Q [0%Z])
               (np_arange (5 # 100) (1 # 2) (1 # 100)) (1 # 2)%Q.
Proof.
  split; [vm_compute; reflexivity|].
  intros (pre & post & Heq & _).
  assert (Forall (fun u => (u < 1 # 2)%Q) (np_arange (5 # 100) (1 # 2) (1 # 100))) as Hall.
  { apply Forall_forall. intros u Hu. apply list_elem_of_In in Hu.
    assert (forallb (fun u => Qgt_bool (1 # 2) u)
              (np_arange (5 # 100) (1 # 2) (1 # 100)) = true) as Hb
      by (vm_compute; reflexivity).
    rewrite forallb_forall in Hb. by apply Qgt_bool_true, Hb. }
  rewrite Heq in Hall. apply Forall_app in Hall as [_ Hall].
  inversion Hall as [|? ? Hlt _]; subst. by apply Qlt_irrefl in Hlt.
Qed.

Lemma threshold_labels_cons (p : Q) (probs : list Q) (t : Q) :
  threshold_labels (p :: probs) t
  = (if Qle_bool t p then 1%Z else 0%Z) :: threshold_labels probs t.
Proof. reflexivity. Qed.

(** Raising the threshold loses true positives to the false negatives. *)
Lemma counts_threshold_mono (probs : list Q) (y : list Z) (t1 t2 : Q) :
  (t1 <= t2)%Q ->
  (Sk.tp y (threshold_labels probs t2) <= Sk.tp y (threshold_labels probs t1))%Z /\
  (Sk.tp y (threshold_labels probs t1) + Sk.fn y (threshold_labels probs t1)
   = Sk.tp y (threshold_labels probs t2) + Sk.fn y (threshold_labels probs t2))%Z.
Proof.
  intros Ht. unfold Sk.tp, Sk.fn. revert y.
  induction probs as [|p probs IH]; intros y.
  - cbn [threshold_labels map]. rewrite !count_nil_r. lia.
  - destruct y as [|y0 y]; [done|].
    rewrite !threshold_labels_cons, !count_cons.
    destruct (IH y) as [IH1 IH2].
    assert (Qle_bool t2 p = true -> Qle_bool t1 p = true) as Hmono.
    { rewrite !Qle_bool_iff. intros H. by eapply Qle_trans. }
    destruct (Qle_bool t2 p), (Qle_bool t1 p);
      try (by specialize (Hmono eq_refl));
      repeat case_decide; try lia; naive_solver.
Qed.

Lemma recall_score_Ok (probs : list Q) (y : list Z) (t : Q) :
  length probs = length y ->
  let pred := threshold_labels probs t in
  Sk.recall_score y pred
  = Ok (if (Sk.tp y pred + Sk.fn y pred =? 0)%Z then 0%Q
        else (inject_Z (Sk.tp y pred) / inject_Z (Sk.tp y pred + Sk.fn y pred))%Q).
Proof.
  intros H pred. unfold Sk.recall_score. subst pred.
  rewrite length_threshold_labels, <- H, Nat.eqb_refl. cbn [negb].
  by destruct (_ =? 0)%Z.
Qed.

(** C9, as the code has it: numpy rounds the threshold to the precision of
    the probabilities ([to_float32], monotone and exact on 0 and 1) and
    compares.  With probabilities in [0,1], threshold 0 predicts every
    example positive; a threshold whose rounding is above every probability
    (1.0 when all probabilities are below 1) predicts every example
    negative; and the recall of the positive class does not increase when
    the threshold increases. *)
Theorem recall_threshold_monotone (to_float32 : Q -> Q)
    (probs : list Q) (y_true : list Z) :
  (forall a b, (a <= b)%Q -> (to_float32 a <= to_float32 b)%Q) ->
  (to_float32 0%Q == 0)%Q -> (to_float32 1%Q == 1)%Q ->
  length probs = length y_true ->
  Forall (fun p => (0 <= p <= 1)%Q) probs ->
  Forall binary_label y_true ->
  threshold_labels probs (to_float32 0%Q) = replicate (length probs) 1%Z /\
  (forall t, Forall (fun p => (p < to_float32 t)%Q) probs ->
     threshold_labels probs (to_float32 t) = replicate (length probs) 0%Z) /\
  (Forall (fun p => (p < 1)%Q) probs ->
     threshold_labels probs (to_float32 1%Q) = replicate (length probs) 0%Z) /\
  (forall t1 t2, (t1 <= t2)%Q ->
     exists r1 r2,
       Sk.recall_score y_true (threshold_labels probs (to_float32 t1)) = Ok r1 /\
       Sk.recall_score y_true (threshold_labels probs (to_float32 t2)) = Ok r2 /\
       (r2 <= r1)%Q).
Proof.
  intros Hmono H0 H1 Hlen Hprobs _.
  assert (forall t, Forall (fun p => (p < to_float32 t)%Q) probs ->
            threshold_labels probs (to_float32 t) = replicate (length probs) 0%Z) as Hneg.
  { intros t Hall. clear Hlen Hprobs.
    induction Hall as [|p probs Hp _ IH]; [done|].
    rewrite threshold_labels_cons, IH.
    destruct (Qle_bool (to_float32 t) p) eqn:E; [|done].
    apply Qle_bool_iff in E. exfalso. by eapply Qlt_not_le. }
  split; [|split; [exact Hneg|split]].
  - clear Hlen Hneg. induction Hprobs as [|p probs [Hp _] _ IH]; [done|].
    rewrite threshold_labels_cons, IH.
    assert (Qle_bool (to_float32 0%Q) p = true) as ->; [|done].
    apply Qle_bool_iff. rewrite H0. exact Hp.
  - intros Hall. apply Hneg. eapply Forall_impl; [exact Hall|].
    intros p Hp. simpl. rewrite H1. exact Hp.
  - intros t1 t2 Ht. apply Hmono in Ht.
    rewrite (recall_score_Ok probs y_true (to_float32 t1) Hlen),
      (recall_score_Ok probs y_true (to_float32 t2) Hlen).
    destruct (counts_threshold_mono probs y_true _ _ Ht) as [Htp Hden].
    eexists _, _. split; [reflexivity|]. split; [reflexivity|].
    rewrite <- Hden.
    pose proof (count_nonneg 1 1 y_true (threshold_labels probs (to_float32 t1))).
    pose proof (count_nonneg 1 0 y_true (threshold_labels probs (to_float32 t1))).
    fold Sk.tp Sk.fn in *.
    destruct (Z.eqb_spec (Sk.tp y_true (threshold_labels probs (to_float32 t1))
                          + Sk.fn y_true (threshold_labels probs (to_float32 t1))) 0);
      [apply Qle_refl|].
    unfold Qdiv. apply Qmult_le_compat_r; [by rewrite <- Zle_Qle|].
    apply Qinv_le_0_compat. change 0%Q with (inject_Z 0).
    rewrite <- Zle_Qle. lia.
Qed.

Lemma round24_monotone (a b : Q) : (a <= b)%Q -> (round24 a <= round24 b)%Q.
Proof.
  intros H. unfold round24, Qdiv. apply Qmult_le_compat_r; [|by vm_compute].
  rewrite <- Zle_Qle. apply Qfloor_resp_le.
  apply Qplus_le_compat; [|apply Qle_refl].
  apply Qmult_le_compat_r; [done|by vm_compute].
Qed.

Lemma recall_threshold_monotone_witness :
  exists r1 r2,
    Sk.recall_score [0; 1; 1; 0]%Z
      (threshold_labels [1 # 10; 6 # 10; 9 # 10; 5 # 100]%Q (round24 (5 # 10))) = Ok r1 /\
    Sk.recall_score [0; 1; 1; 0]%Z
      (threshold_labels [1 # 10; 6 # 10; 9 # 10; 5 # 100]%Q (round24 (8 # 10))) = Ok r2 /\
    (r2 <= r1)%Q.
Proof.
  refine (proj2 (proj2 (proj2 (recall_threshold_monotone round24
                                 [1 # 10; 6 # 10; 9 # 10; 5 # 100]%Q [0; 1; 1; 0]%Z
                                 round24_monotone _ _ eq_refl _ _)))
            (5 # 10)%Q (8 # 10)%Q _).
  - by vm_compute.
  - by vm_compute.
  - repeat constructor; by vm_compute.
  - binary_labels.
  - by vm_compute.
Defined.

(** C9, counterexample: an example of probability 1.0 is predicted
    positive at threshold 1.0. *)
Lemma threshold_one_predicts_positive :
  threshold_labels [1%Q] 1 = [1%Z] /\ (0 <= 1 <= 1)%Q.
Proof. split; [reflexivity|]. split; by vm_compute. Qed.

(** * Further properties of the notebook's code *)

(** ** Lines and tokens *)

Lemma is_empty_false (s : string) : Py.is_empty s = false -> s <> EmptyString.
Proof. by destruct s. Qed.

Lemma no_space_snoc (tok : string) (c : ascii) :
  no_space tok = true -> Py.isspace c = false ->
  no_space (tok +:+ String c EmptyString) = true.
Proof.
  intros Htok Hc. induction tok as [|d tok IH]; simpl in *.
  - by rewrite Hc.
  - apply andb_true_iff in Htok as [-> Htok]. by rewrite IH.
Qed.

Lemma split_from_tokens (tok s : string) :
  no_space tok = true -> Forall is_token (Py.split_from tok s).
Proof.
  revert tok. induction s as [|c s IH]; intros tok Htok; simpl.
  - destruct (Py.is_empty tok) eqn:E; [constructor|].
    repeat constructor; [by apply is_empty_false|done].
  - destruct (Py.isspace c) eqn:Hc.
    + destruct (Py.is_empty tok) eqn:E; [by apply IH|].
      constructor; [|by apply IH]. split; [by apply is_empty_false|done].
    + apply IH. by apply no_space_snoc.
Qed.

Lemma split_tokens (s : string) : Forall is_token (Py.split s).
Proof. by apply split_from_tokens. Qed.

Lemma split_from_lstrip (s : string) : Py.split (Py.lstrip s) = Py.split s.
Proof.
  unfold Py.split. induction s as [|c s IH]; [done|]. simpl.
  destruct (Py.isspace c) eqn:Hc; [done|]. simpl. by rewrite Hc.
Qed.

Lemma split_from_rstrip (tok s : string) :
  Py.split_from tok (Py.rstrip s) = Py.split_from tok s.
Proof.
  revert tok. induction s as [|c s IH]; intros tok; [done|]. simpl.
  destruct (Py.is_empty (Py.rstrip s)) eqn:He; simpl.
  - destruct (Py.isspace c) eqn:Hc; simpl.
    + rewrite <- (IH EmptyString).
      destruct (Py.rstrip s); [|done]. simpl. by destruct (Py.is_empty tok).
    + rewrite Hc. apply IH.
  - destruct (Py.isspace c); [|apply IH]. by rewrite IH.
Qed.

Lemma split_strip (s : string) : Py.split (Py.strip s) = Py.split s.
Proof.
  unfold Py.strip, Py.split at 1. rewrite split_from_rstrip. apply split_from_lstrip.
Qed.

(** ** More on GloVe loading *)

Section GloveMore.

Variable float_of_string : string -> option Q.

Lemma load_lines_app (l1 l2 : list string) (m : gmap string (list Q)) :
  load_lines float_of_string (l1 ++ l2) m
  = load_lines float_of_string l1 m ≫= load_lines float_of_string l2.
Proof.
  revert m. induction l1 as [|line l1 IH]; intros m; [done|]. simpl.
  destruct (Py.index _ 0) as [word|e]; [|done]. simpl.
  destruct (np_array _ _) as [v|e]; [|done]. simpl. apply IH.
Qed.

Lemma load_lines_keys (P : string -> Prop) (lines : list string)
    (m store : gmap string (list Q)) :
  (forall line w, line ∈ lines ->
     Py.index (Py.split (Py.strip line)) 0 = Ok w -> P w) ->
  (forall w, is_Some (m !! w) -> P w) ->
  load_lines float_of_string lines m = Ok store ->
  forall w, is_Some (store !! w) -> P w.
Proof.
  revert m. induction lines as [|line lines IH]; intros m Hlines Hm H.
  - by injection H as <-.
  - simpl in H. apply bind_Ok in H as (word & Hword & H).
    apply bind_Ok in H as (v & Hv & H).
    eapply IH; [|  |exact H].
    + intros l w Hl. apply Hlines. by right.
    + intros w. rewrite lookup_insert_is_Some'. intros [<-|Hw]; [|by apply Hm].
      eapply Hlines; [by left|done].
Qed.

End GloveMore.

(** X1: every key of a loaded store is a token of its line: non-empty and
    without any whitespace character. *)
Theorem load_glove_embeddings_keys (float_of_string : string -> option Q)
    (file : list string) (store : gmap string (list Q)) :
  load_glove_embeddings float_of_string file = Ok store ->
  forall w, is_Some (store !! w) -> is_token w.
Proof.
  unfold load_glove_embeddings.
  apply (load_lines_keys float_of_string is_token).
  - intros line w _ Hw. apply index_elem_of in Hw.
    pose proof (split_tokens (Py.strip line)) as Hall.
    rewrite Forall_forall in Hall. by apply Hall.
  - intros w. rewrite lookup_empty. by intros [? ?].
Qed.

Lemma load_glove_embeddings_keys_witness : is_token "gene".
Proof.
  apply (load_glove_embeddings_keys Decimal.parse ["cow 1 0"; " gene	0 1.5 "]
           (<["gene" := [0%Q; (1 + 5 / 10)%Q]]> (<["cow" := [1%Q; 0%Q]]> ∅))).
  - vm_compute. reflexivity.
  - vm_compute. by eexists.
Defined.

(** X2: loading goes line by line.  A file that fails to load fails the
    same way whatever follows it; appending to a file that loads a line
    made of a token and numbers sets that token's vector (replacing an
    earlier one) and leaves every other token as it was. *)
Theorem load_glove_embeddings_append (float_of_string : string -> option Q)
    (file : list string) :
  (forall e rest,
     load_glove_embeddings float_of_string file = Raise e ->
     load_glove_embeddings float_of_string (file ++ rest) = Raise e) /\
  (forall store line w v,
     load_glove_embeddings float_of_string file = Ok store ->
     line_entry float_of_string line (w, v) ->
     exists store',
       load_glove_embeddings float_of_string (file ++ [line]) = Ok store' /\
       store' !! w = Some v /\
       forall w', w' <> w -> store' !! w' = store !! w').
Proof.
  unfold load_glove_embeddings. split.
  - intros e rest H. by rewrite load_lines_app, H.
  - intros store line w v H (fields & Hsplit & Hnum).
    rewrite load_lines_app, H. cbn [mbind result_bind load_lines].
    simpl in Hsplit. rewrite Hsplit. cbn [Py.index]. simpl. rewrite drop_0.
    rewrite (np_array_Ok _ _ _ Hnum). simpl.
    eexists. split; [reflexivity|]. split.
    + apply lookup_insert_eq.
    + intros w' Hne. by apply lookup_insert_ne.
Qed.

Lemma load_glove_embeddings_append_witness :
  load_glove_embeddings Decimal.parse (["cow 1 x"] ++ ["gene 1"]) = Raise ValueError /\
  exists store',
    load_glove_embeddings Decimal.parse (["cow 1 0"; "gene 0 1"] ++ ["cow 2 2"])
    = Ok store' /\
    store' !! "cow" = Some [2%Q; 2%Q] /\
    forall w', w' <> "cow" ->
      store' !! w' = (<["gene" := [0%Q; 1%Q]]> (<["cow" := [1%Q; 0%Q]]> ∅)
                      : gmap string (list Q)) !! w'.
Proof.
  split.
  - apply (proj1 (load_glove_embeddings_append Decimal.parse ["cow 1 x"])).
    vm_compute. reflexivity.
  - apply (proj2 (load_glove_embeddings_append Decimal.parse ["cow 1 0"; "gene 0 1"])).
    + vm_compute. reflexivity.
    + exists ["2"; "2"]. split; [vm_compute; reflexivity|]. repeat constructor.
Defined.

(** X3: the [strip] before the [split] changes nothing: whitespace around
    a line, its newline included, does not affect what is loaded. *)
Theorem load_glove_embeddings_strip (float_of_string : string -> option Q)
    (file : list string) :
  (forall line, Py.split (Py.strip line) = Py.split line) /\
  load_glove_embeddings float_of_string (map Py.strip file)
  = load_glove_embeddings float_of_string file.
Proof.
  split; [apply split_strip|]. unfold load_glove_embeddings.
  generalize (∅ : gmap string (list Q)).
  induction file as [|line file IH]; intros m; [done|].
  cbn [map load_lines]. rewrite (split_strip (Py.strip line)).
  destruct (Py.index _ 0) as [word|e]; [|done]. simpl.
  destruct (np_array _ _) as [v|e]; [|done]. simpl. apply IH.
Qed.

(** ** More on GloVe averaging *)

Lemma hits_uniform (text : string) (store : gmap string (list Q)) (D : nat) :
  uniform_store store D -> Forall (fun h => length h = D) (hits text store).
Proof.
  intros Hu. unfold hits. apply Forall_forall. intros h Hh.
  apply list_elem_of_omap in Hh as (tok & _ & Hlook). by eapply Hu.
Qed.

Lemma avg_glove_uniform (text : string) (store : gmap string (list Q)) (D : nat) :
  uniform_store store D ->
  exists v, text_to_avg_glove text store D = Ok v /\ length v = D.
Proof.
  intros Hu. rewrite text_to_avg_glove_hits.
  pose proof (hits_uniform text store D Hu) as Hall.
  destruct (hits text store) as [|h hs].
  - eexists. split; [reflexivity|]. unfold Np.zeros. by rewrite length_replicate.
  - destruct (mean_axis0_spec D h hs Hall) as (r & Hr & Hlen & _). eauto.
Qed.

Lemma uniform_storeA : uniform_store storeA 2.
Proof.
  intros k v. unfold storeA. rewrite !lookup_insert_Some, lookup_empty.
  intros [[_ <-]|[_ [[_ <-]|[_ ?]]]]; done.
Qed.

(** X5: a text with exactly one token found in the store gets that token's
    vector, whatever [embed_dim] is. *)
Theorem text_to_avg_glove_single (text : string) (store : gmap string (list Q))
    (dim : nat) (h : list Q) :
  hits text store = [h] ->
  exists v, text_to_avg_glove text store dim = Ok v /\ Forall2 Qeq v h.
Proof.
  intros H. rewrite text_to_avg_glove_hits, H. unfold Np.mean_axis0. simpl.
  eexists. split; [reflexivity|].
  clear H. induction h as [|x h IH]; simpl; constructor; [|exact IH].
  destruct x as [n d]. unfold Qeq. simpl. rewrite Pos.mul_1_r. lia.
Qed.

Lemma text_to_avg_glove_single_witness :
  exists v, text_to_avg_glove "the gene of unknown" storeA 300 = Ok v /\
            Forall2 Qeq v [0%Q; 1%Q].
Proof.
  apply text_to_avg_glove_single. vm_compute. reflexivity.
Defined.

(** ** Text preprocessing *)

Lemma isspace_lower_char (c : ascii) : Py.isspace (lower_char c) = Py.isspace c.
Proof. destruct c as [[] [] [] [] [] [] [] []]; reflexivity. Qed.

Lemma lower_char_idemp (c : ascii) : lower_char (lower_char c) = lower_char c.
Proof. destruct c as [[] [] [] [] [] [] [] []]; reflexivity. Qed.

Lemma lower_idemp (s : string) : lower (lower s) = lower s.
Proof. induction s as [|c s IH]; [done|]. simpl. by rewrite lower_char_idemp, IH. Qed.

Lemma lower_app (a b : string) : lower (a +:+ b) = lower a +:+ lower b.
Proof. induction a as [|c a IH]; [done|]. simpl. by rewrite IH. Qed.

Lemma is_empty_lower (s : string) : Py.is_empty (lower s) = Py.is_empty s.
Proof. by destruct s. Qed.

Lemma split_from_lower (tok s : string) :
  Py.split_from (lower tok) (lower s) = map lower (Py.split_from tok s).
Proof.
  revert tok. induction s as [|c s IH]; intros tok; simpl.
  - rewrite is_empty_lower. by destruct (Py.is_empty tok).
  - rewrite isspace_lower_char, is_empty_lower.
    destruct (Py.isspace c).
    + destruct (Py.is_empty tok); simpl; by rewrite <- (IH EmptyString).
    + by rewrite <- IH, lower_app.
Qed.

Lemma split_from_app_space (tok a b : string) :
  Py.split_from tok (a +:+ " " +:+ b) = Py.split_from tok a ++ Py.split b.
Proof.
  revert tok. induction a as [|c a IH]; intros tok; simpl.
  - by destruct (Py.is_empty tok).
  - destruct (Py.isspace c).
    + destruct (Py.is_empty tok); simpl; by rewrite IH.
    + apply IH.
Qed.

Lemma row_text_split (title abstract : option string) :
  Py.split (row_text title abstract)
  = map lower (Py.split (fillna title)) ++ map lower (Py.split (fillna abstract)).
Proof.
  unfold row_text, Py.split at 1. rewrite split_from_app_space.
  unfold Py.split.
  by rewrite <- !(split_from_lower EmptyString).
Qed.

Lemma row_text_tokens_lower (title abstract : option string) :
  Forall (fun tok => lower tok = tok /\ is_token tok)
         (Py.split (row_text title abstract)).
Proof.
  apply Forall_and. split; [|apply split_tokens].
  rewrite row_text_split. apply Forall_app. fmapify.
  split; apply Forall_fmap, Forall_true; intros tok; apply lower_idemp.
Qed.

(** X7: the tokens of a record's text are the lower-cased tokens of its
    title followed by the lower-cased tokens of its abstract; a missing
    title or abstract contributes none. *)
Theorem row_text_tokens (title abstract : option string) :
  Py.split (row_text title abstract)
  = map lower (Py.split (fillna title)) ++ map lower (Py.split (fillna abstract)).
Proof. apply row_text_split. Qed.

(** X8: the text of a record is in lower case: lower-casing it again
    changes neither the text nor any of its tokens, each of which is
    non-empty and free of whitespace. *)
Theorem row_text_lowercase (title abstract : option string) :
  lower (row_text title abstract) = row_text title abstract /\
  Forall (fun tok => lower tok = tok /\ is_token tok)
         (Py.split (row_text title abstract)).
Proof.
  split; [|apply row_text_tokens_lower].
  unfold row_text. by rewrite !lower_app, !lower_idemp.
Qed.

(** X9: a key of the store that is not in lower case is never found from a
    record's text: removing it from the store changes no vector. *)
Theorem row_text_ignores_uppercase_key (title abstract : option string)
    (store : gmap string (list Q)) (k : string) (dim : nat) :
  lower k <> k ->
  text_to_avg_glove (row_text title abstract) (delete k store) dim
  = text_to_avg_glove (row_text title abstract) store dim.
Proof.
  intros Hk. rewrite !text_to_avg_glove_hits.
  assert (hits (row_text title abstract) (delete k store)
          = hits (row_text title abstract) store) as ->; [|done].
  unfold hits.
  pose proof (row_text_tokens_lower title abstract) as Hlow.
  induction Hlow as [|tok toks [Htok _] _ IH]; [done|].
  cbn [omap list_omap]. fold (omap (fun token => delete k store !! token) toks).
  fold (omap (fun token => store !! token) toks). rewrite IH.
  rewrite lookup_delete_ne; [done|]. intros ->. by apply Hk.
Qed.

Lemma row_text_ignores_uppercase_key_witness :
  text_to_avg_glove (row_text (Some "Cow QTL") None)
                    (delete "QTL" (<["QTL" := [5%Q; 5%Q]]> storeA)) 2
  = text_to_avg_glove (row_text (Some "Cow QTL") None)
                      (<["QTL" := [5%Q; 5%Q]]> storeA) 2.
Proof. apply row_text_ignores_uppercase_key. vm_compute. discriminate. Defined.

(** ** More on the dataset *)

Lemma index_negative {A} (xs : list A) (i : Z) :
  (- Z.of_nat (length xs) <= i < 0)%Z ->
  Py.index xs i = Py.index xs (i + Z.of_nat (length xs)).
Proof.
  intros Hi. unfold Py.index.
  destruct (Z.ltb_spec i 0); [|lia].
  destruct (Z.ltb_spec (i + Z.of_nat (length xs)) 0); [lia|done].
Qed.

Lemma index_out_of_range {A} (xs : list A) (i : Z) :
  (i < - Z.of_nat (length xs) \/ Z.of_nat (length xs) <= i)%Z ->
  Py.index xs i = Raise IndexError.
Proof.
  intros Hi. unfold Py.index.
  destruct (Z.ltb_spec i 0).
  - destruct (Z.leb_spec 0 (i + Z.of_nat (length xs))); [lia|done].
  - destruct (Z.ltb_spec i (Z.of_nat (length xs))); [lia|].
    by rewrite andb_false_r.
Qed.

Section DatasetMore.

Variable subword_ids : string -> list Z.
Variable pad_token_id : Z.

Lemma init_lengths texts labels store L D ds :
  BertGloveDataset_init subword_ids pad_token_id texts labels store L D = Ok ds ->
  BertGloveDataset_len ds = length texts /\
  length (ds_input_ids ds) = length texts /\
  length (ds_attention_mask ds) = length texts /\
  length (ds_glove_embs ds) = length texts /\
  ds_labels ds = labels.
Proof.
  intros H. apply init_inv in H as (embs & Hembs & ->). simpl.
  rewrite !length_map. apply mapM_length in Hembs. done.
Qed.

(** X10: indexing a dataset follows Python's rules.  With labels absent or
    as many as the texts, every index from [-n] to [n-1] gives an example,
    a negative index [i] giving the example at [i + n]; any other index
    raises [IndexError]. *)
Theorem getitem_index (texts : list string) (labels : option (list Z))
    (store : gmap string (list Q)) (max_length glove_dim : nat)
    (ds : BertGloveDataset) :
  BertGloveDataset_init subword_ids pad_token_id texts labels store
                        max_length glove_dim = Ok ds ->
  (forall ls, labels = Some ls -> length ls = length texts) ->
  let n := Z.of_nat (length texts) in
  BertGloveDataset_len ds = length texts /\
  (forall idx, (0 <= idx < n)%Z ->
     exists item, BertGloveDataset_getitem ds idx = Ok item) /\
  (forall idx, (- n <= idx < 0)%Z ->
     BertGloveDataset_getitem ds idx = BertGloveDataset_getitem ds (idx + n)) /\
  (forall idx, (idx < - n \/ n <= idx)%Z ->
     BertGloveDataset_getitem ds idx = Raise IndexError).
Proof.
  intros Hinit Hls n.
  destruct (init_lengths _ _ _ _ _ _ Hinit) as (Hlen & Hids & Hmask & Hembs & Hlab).
  split; [done|]. split; [|split].
  - intros idx Hidx.
    assert (is_Some (texts !! Z.to_nat idx)) as [text Ht]
      by (apply lookup_lt_is_Some; lia).
    destruct (getitem_nat _ _ _ _ _ _ _ _ _ _ Hinit Ht) as (emb & _ & _ & Hget).
    rewrite Z2Nat.id in Hget by lia. rewrite Hget.
    destruct labels as [ls|]; [|by eexists].
    assert (is_Some (ls !! Z.to_nat idx)) as [l Hl]
      by (apply lookup_lt_is_Some; rewrite (Hls ls eq_refl); lia).
    pose proof (index_nat ls _ l Hl) as Hidx'. rewrite Z2Nat.id in Hidx' by lia.
    rewrite Hidx'. by eexists.
  - intros idx Hidx. unfold BertGloveDataset_getitem.
    rewrite (index_negative (ds_input_ids ds)), (index_negative (ds_attention_mask ds)),
      (index_negative (ds_glove_embs ds)), Hids, Hmask, Hembs by lia.
    rewrite Hlab. destruct labels as [ls|]; [|done].
    by rewrite (index_negative ls), (Hls ls eq_refl) by (rewrite (Hls ls eq_refl); lia).
  - intros idx Hidx. unfold BertGloveDataset_getitem.
    by rewrite (index_out_of_range (ds_input_ids ds)) by (rewrite Hids; lia).
Qed.

Lemma mapM_total {A B} (f : A -> result B) (P : B -> Prop) (xs : list A) :
  (forall x, exists y, f x = Ok y /\ P y) ->
  exists ys, Py.mapM f xs = Ok ys /\ Forall P ys.
Proof.
  intros Hf. induction xs as [|x xs (ys & Hys & HP)].
  - by exists [].
  - destruct (Hf x) as (y & Hy & HPy). exists (y :: ys). simpl.
    rewrite Hy, Hys. by split; [|constructor].
Qed.

(** X11: when every vector of the store has dimension [glove_dim], the
    dataset is built for every non-empty list of texts, and every example
    it gives has a GloVe feature of that dimension. *)
Theorem dataset_init_uniform (texts : list string) (labels : option (list Z))
    (store : gmap string (list Q)) (max_length glove_dim : nat) :
  texts <> [] ->
  uniform_store store glove_dim ->
  exists ds,
    BertGloveDataset_init subword_ids pad_token_id texts labels store
                          max_length glove_dim = Ok ds /\
    BertGloveDataset_len ds = length texts /\
    forall idx item, BertGloveDataset_getitem ds idx = Ok item ->
      length (item_glove_emb item) = glove_dim.
Proof.
  intros _ Hu.
  destruct (mapM_total (fun t => text_to_avg_glove t store glove_dim)
              (fun v => length v = glove_dim) texts) as (embs & Hembs & Hall).
  { intros t. by apply avg_glove_uniform. }
  unfold BertGloveDataset_init. rewrite Hembs. eexists. split; [reflexivity|].
  split; [done|]. intros idx item Hget.
  unfold BertGloveDataset_getitem in Hget. simpl in Hget.
  apply bind_Ok in Hget as (ids & _ & Hget).
  apply bind_Ok in Hget as (mask & _ & Hget).
  apply bind_Ok in Hget as (g & Hg & Hget).
  apply bind_Ok in Hget as (l & _ & Hget). injection Hget as <-. simpl.
  apply index_elem_of in Hg. rewrite Forall_forall in Hall. by apply Hall.
Qed.

End DatasetMore.

Lemma getitem_index_witness :
  BertGloveDataset_getitem
    {| ds_texts := ["a"; "cow gene"]; ds_labels := Some [0%Z; 1%Z];
       ds_glove_dim := 2;
       ds_glove_embs := [[0%Q; 0%Q]; [(1 # 2)%Q; (1 # 2)%Q]];
       ds_input_ids := [[97; 0; 0; 0]%Z; [99; 111; 119; 32]%Z];
       ds_attention_mask := [[1; 0; 0; 0]%Z; [1; 1; 1; 1]%Z] |} 2
  = Raise IndexError.
Proof.
  refine (proj2 (proj2 (proj2 (getitem_index char_ids 0 ["a"; "cow gene"] (Some [0%Z; 1%Z])
                                 storeA 4 2 _ eq_refl _))) 2%Z _).
  - by intros ls [= <-].
  - simpl. lia.
Defined.

Lemma dataset_init_uniform_witness :
  exists ds,
    BertGloveDataset_init char_ids 0 ["xyz"; "cow gene"] None storeA 4 2 = Ok ds /\
    BertGloveDataset_len ds = 2%nat /\
    forall idx item, BertGloveDataset_getitem ds idx = Ok item ->
      length (item_glove_emb item) = 2%nat.
Proof.
  apply (dataset_init_uniform char_ids 0 ["xyz"; "cow gene"] None storeA 4 2);
    [discriminate | apply uniform_storeA].
Defined.


(** ** More on batch collation *)

Lemma stack_cases {A B} (f : A -> list B) (batch : list A) :
  match Torch.stack (map f batch) with
  | Ok r => r = map f batch /\
            exists x rest, batch = x :: rest /\
              Forall (fun y => length (f y) = length (f x)) rest
  | Raise e => e = RuntimeError /\
               forall x rest, batch = x :: rest ->
                 ~ Forall (fun y => length (f y) = length (f x)) rest
  end.
Proof.
  destruct batch as [|x rest]; [by split|]. cbn [map Torch.stack].
  destruct (forallb _ (map f rest)) eqn:E.
  - split; [done|]. exists x, rest. split; [done|].
    rewrite forallb_forall in E. apply Forall_forall. intros y Hy.
    apply Nat.eqb_eq, E, in_map, list_elem_of_In, Hy.
  - split; [done|]. intros x' rest' [= <- <-] Hall.
    apply not_true_iff_false in E. apply E, forallb_forall.
    intros u Hu. apply in_map_iff in Hu as (y & <- & Hy).
    apply Nat.eqb_eq. rewrite Forall_forall in Hall.
    by apply Hall, list_elem_of_In.
Qed.

Lemma get_labels_inv (batch : list Item) (ls : list Z) :
  Py.mapM get_labels batch = Ok ls -> map item_labels batch = map Some ls.
Proof.
  revert ls. induction batch as [|x batch IH]; intros ls H; simpl in H.
  - by injection H as <-.
  - apply bind_Ok in H as (l & Hl & H). apply bind_Ok in H as (ls' & Hls & H).
    injection H as <-. simpl. rewrite (IH ls' Hls). f_equal.
    unfold get_labels in Hl. destruct (item_labels x); [|done]. by injection Hl as <-.
Qed.

Lemma collate_fn_inversion (batch : list Item) :
  (forall b, collate_fn batch = Ok b ->
     exists x rest, batch = x :: rest /\ Forall (same_shape x) rest /\
       batch_input_ids b = map item_input_ids batch /\
       batch_attention_mask b = map item_attention_mask batch /\
       batch_glove_emb b = map item_glove_emb batch /\
       match batch_labels b with
       | Some ls => map item_labels batch = map Some ls
       | None => item_labels x = None
       end) /\
  (batch = [] \/ (exists x rest, batch = x :: rest /\ ~ Forall (same_shape x) rest) ->
   collate_fn batch = Raise RuntimeError).
Proof.
  unfold collate_fn.
  pose proof (stack_cases item_input_ids batch) as H1.
  pose proof (stack_cases item_attention_mask batch) as H2.
  pose proof (stack_cases item_glove_emb batch) as H3.
  destruct (Torch.stack (map item_input_ids batch)) as [ids|e1].
  2:{ destruct H1 as [-> _]. split; [by intros ? [=]|done]. }
  destruct (Torch.stack (map item_attention_mask batch)) as [mask|e2].
  2:{ destruct H2 as [-> _]. split; [by intros ? [=]|done]. }
  destruct (Torch.stack (map item_glove_emb batch)) as [g|e3].
  2:{ destruct H3 as [-> _]. split; [by intros ? [=]|done]. }
  destruct H1 as (-> & x & rest & -> & Hs1).
  destruct H2 as (-> & x2 & rest2 & [= <- <-] & Hs2).
  destruct H3 as (-> & x3 & rest3 & [= <- <-] & Hs3).
  assert (Forall (same_shape x) rest) as Hshape.
  { apply Forall_forall. intros y Hy. rewrite Forall_forall in Hs1, Hs2, Hs3.
    repeat split; eauto. }
  cbn [mbind result_bind]. rewrite index_0. cbn [mbind result_bind].
  split.
  - intros b Hb. exists x, rest. split; [done|]. split; [done|].
    destruct (item_labels x) as [l|] eqn:Hx.
    + rewrite bool_decide_true in Hb by eauto.
      apply bind_Ok in Hb as (labels & Hlabels & Hb).
      apply bind_Ok in Hlabels as (ls & Hls & Hst).
      apply bind_Ok in Hst as (st & Hst & Hret).
      injection Hret as <-. injection Hb as <-. cbn.
      repeat (split; [done|]).
      destruct ls; [done|]. injection Hst as <-.
      exact (get_labels_inv (x :: rest) _ Hls).
    + rewrite bool_decide_false in Hb by (by intros [? ?]).
      injection Hb as <-. by cbn.
  - intros [?|(x' & rest' & [= <- <-] & Hnot)]; done.
Qed.

(** X12: collation succeeds only on a non-empty batch whose examples have
    tensors of the same shapes; the batch then holds the fields of the
    examples in input order, and its labels, when present, are the labels
    of all the examples in that order.  An empty batch and a batch with
    examples of different shapes raise [RuntimeError]. *)
Theorem collate_fn_Ok_inv (batch : list Item) :
  (forall b, collate_fn batch = Ok b ->
     exists x rest, batch = x :: rest /\ Forall (same_shape x) rest /\
       batch_input_ids b = map item_input_ids batch /\
       batch_attention_mask b = map item_attention_mask batch /\
       batch_glove_emb b = map item_glove_emb batch /\
       match batch_labels b with
       | Some ls => map item_labels batch = map Some ls
       | None => item_labels x = None
       end) /\
  (batch = [] \/ (exists x rest, batch = x :: rest /\ ~ Forall (same_shape x) rest) ->
   collate_fn batch = Raise RuntimeError).
Proof. apply collate_fn_inversion. Qed.

Lemma collate_fn_Ok_inv_witness :
  collate_fn [ {| item_input_ids := [97; 0]%Z; item_attention_mask := [1; 0]%Z;
                  item_glove_emb := [0%Q]; item_labels := None |};
               {| item_input_ids := [98; 99]%Z; item_attention_mask := [1; 1]%Z;
                  item_glove_emb := [1%Q; 1%Q]; item_labels := None |} ]
  = Raise RuntimeError.
Proof.
  apply collate_fn_Ok_inv. right. eexists _, _. split; [reflexivity|].
  intros H. apply Forall_cons_1 in H as [(_ & _ & H) _]. discriminate H.
Defined.

(** ** More on the hybrid classifier *)

Lemma fold_zero_terms (n : nat) (f : nat -> Q -> Q) (acc : Q) :
  (forall j, (f j 0 == 0)%Q) ->
  (fold_left Qplus (imap f (replicate n 0%Q)) acc == acc)%Q.
Proof.
  revert f acc. induction n as [|n IH]; intros f acc Hf; [reflexivity|].
  cbn [replicate imap fold_left]. rewrite IH by (intros j; apply Hf).
  rewrite Hf. ring.
Qed.

Lemma dot_app_zeros (w : nat -> Q) (r : list Q) (n : nat) :
  (dot w (r ++ Np.zeros n) == dot w r)%Q.
Proof.
  unfold dot, Np.zeros. rewrite imap_app, fold_left_app.
  apply fold_zero_terms. intros j. simpl. ring.
Qed.

Lemma Linear_rows_app_zeros (W : nat -> nat -> Q) (b : nat -> Q) (ks : list nat)
    (r : list Q) (n : nat) :
  Forall2 Qeq (map (fun k => (dot (W k) (r ++ Np.zeros n) + b k)%Q) ks)
              (map (fun k => (dot (W k) r + b k)%Q) ks).
Proof.
  induction ks as [|k ks IH]; constructor; [|exact IH].
  by rewrite dot_app_zeros.
Qed.

Section ModelMore.

Variable pooler : list Z -> list Z -> nat -> Q.
Variable log_softmax : list Q -> list Q.

(** The pooled output after dropout, as [forward] computes it. *)
Lemma forward_unfold (self : BertWithGlove) (mode : Mode)
    (ids mask : list (list Z)) (g : option (list (list Q))) :
  length ids = length mask ->
  exists x,
    length x = length ids /\
    Forall (fun row => length row = hidden_size (config self)) x /\
    (bert_pooler_output pooler (config self) ids mask ≫= fun p =>
       Ok (Dropout (dropout_p self) (training mode) (keep mode) p)) = Ok x /\
    forward pooler log_softmax self mode ids mask g None
    = (combined ← Torch.cat1 x (match g with
                               | Some g0 => g0
                               | None => Torch.zeros (length x) 300
                               end);
       lg ← Linear_forward (classifier self) combined;
       Ok {| loss := None; logits := lg |}).
Proof.
  intros Hmask. unfold forward.
  destruct (bert_pooler_output_shape pooler (config self) ids mask Hmask)
    as (p & -> & Hlen & Hp).
  cbn [mbind result_bind].
  destruct (Dropout_shape (dropout_p self) (training mode) (keep mode)
              p (hidden_size (config self)) Hp) as [Hdl Hd].
  eexists. split; [|split; [exact Hd|split; [reflexivity|]]]; [lia|].
  destruct (Torch.cat1 _ _) as [c|e]; [|done]. cbn [mbind result_bind].
  by destruct (Linear_forward (classifier self) c).
Qed.

(** X13: for a model of the default [glove_dim] 300, a call without
    [glove_emb] returns, gives the logits of the call with an all-zero
    [glove_emb], and these are the outputs of the linear layer on the
    pooled encoder output alone: the substituted zeros add nothing. *)
Theorem forward_absent_glove_emb_default (cfg : BertConfig)
    (W : nat -> nat -> Q) (b : nat -> Q) (mode : Mode)
    (ids mask : list (list Z)) :
  length ids = length mask ->
  let self := BertWithGlove_init cfg 300 W b in
  exists x lg lg0,
    (bert_pooler_output pooler cfg ids mask ≫= fun p =>
       Ok (Dropout (hidden_dropout_prob cfg) (training mode) (keep mode) p)) = Ok x /\
    forward pooler log_softmax self mode ids mask None None
    = Ok {| loss := None; logits := lg |} /\
    forward pooler log_softmax self mode ids mask
            (Some (Torch.zeros (length ids) 300)) None
    = Ok {| loss := None; logits := lg |} /\
    length lg = length ids /\
    Linear_forward {| in_features := hidden_size cfg; out_features := num_labels cfg;
                      weight := W; bias := b |} x = Ok lg0 /\
    Forall2 (Forall2 Qeq) lg lg0.
Proof.
  intros Hmask self.
  destruct (forward_unfold self mode ids mask None Hmask) as (x & Hlen & Hx & Hpool & Hf).
  destruct (forward_unfold self mode ids mask (Some (Torch.zeros (length ids) 300)) Hmask)
    as (x' & _ & _ & Hpool' & Hf').
  rewrite Hpool in Hpool'. injection Hpool' as <-.
  rewrite Hlen in Hf. rewrite Hf, Hf'.
  change (config self) with cfg in *.
  change (dropout_p self) with (hidden_dropout_prob cfg) in *.
  destruct (cat1_shape x (Torch.zeros (length ids) 300) (hidden_size cfg) 300)
    as (-> & Hcl & Hc); [by unfold Torch.zeros; rewrite length_replicate|done| |].
  { apply Forall_replicate. unfold Np.zeros. by rewrite length_replicate. }
  cbn [mbind result_bind].
  destruct (Linear_forward_Ok (classifier self) _ Hc) as (lg & Hlg & Hll & _).
  destruct (Linear_forward_Ok
              {| in_features := hidden_size cfg; out_features := num_labels cfg;
                 weight := W; bias := b |} x Hx) as (lg0 & Hlg0 & _ & _).
  exists x, lg, lg0. rewrite Hlg. cbn [mbind result_bind].
  repeat (split; [done || lia|]).
  clear -Hlg Hlg0 Hlen. unfold Linear_forward in *.
  destruct (forallb _ (zip_with app _ _)); [|done]. injection Hlg as <-.
  destruct (forallb _ x); [|done]. injection Hlg0 as <-.
  cbn [weight bias out_features classifier self BertWithGlove_init].
  rewrite <- Hlen. clear Hlen. unfold Torch.zeros.
  induction x as [|r x IH]; [constructor|].
  cbn [length replicate zip_with map]. constructor; [|exact IH].
  apply Linear_rows_app_zeros.
Qed.

(** X14: a [glove_emb] that does not fit the model is refused: with another
    number of rows than the batch, or (for a non-empty batch) with rows of
    another dimension than the model's [glove_dim], the call raises
    [RuntimeError]. *)
Theorem forward_glove_emb_mismatch (cfg : BertConfig) (glove_dim : nat)
    (W : nat -> nat -> Q) (b : nat -> Q) (mode : Mode)
    (ids mask : list (list Z)) (g : list (list Q)) (labels : option (list Z)) :
  length ids = length mask ->
  length g <> length ids \/
  (ids <> [] /\ exists D, D <> glove_dim /\ Forall (fun row => length row = D) g) ->
  forward pooler log_softmax (BertWithGlove_init cfg glove_dim W b) mode
          ids mask (Some g) labels
  = Raise RuntimeError.
Proof.
  intros Hmask Hbad. rewrite forward_factor.
  set (self := BertWithGlove_init cfg glove_dim W b).
  destruct (forward_unfold self mode ids mask (Some g) Hmask) as (x & Hlen & Hx & _ & ->).
  destruct (decide (length g = length ids)) as [Hg|Hg].
  - destruct Hbad as [?|(Hne & D & HD & Hrows)]; [done|].
    destruct (cat1_shape x g (hidden_size cfg) D) as (-> & Hcl & Hc); [lia|done|done|].
    cbn [mbind result_bind].
    rewrite (Linear_forward_Raise (classifier self) _ _ Hc); [done| |simpl; lia].
    intros Hnil. rewrite Hnil in Hcl. destruct ids; [done|]. simpl in *. lia.
  - unfold Torch.cat1.
    destruct (Nat.eqb_spec (length x) (length g)); [lia|done].
Qed.

End ModelMore.

Lemma forward_absent_glove_emb_default_witness :
  exists x lg lg0,
    (bert_pooler_output (fun _ _ k => inject_Z (Z.of_nat k))
       {| hidden_size := 2; num_labels := 2; hidden_dropout_prob := 1 # 10 |}
       [[101; 102]%Z] [[1; 1]%Z] ≫= fun p =>
       Ok (Dropout (1 # 10) false (fun _ _ => true) p)) = Ok x /\
    forward (fun _ _ k => inject_Z (Z.of_nat k)) (fun row => row)
            (BertWithGlove_init
               {| hidden_size := 2; num_labels := 2; hidden_dropout_prob := 1 # 10 |}
               300 (fun _ _ => 1%Q) (fun _ => 0%Q))
            eval_mode [[101; 102]%Z] [[1; 1]%Z] None None
    = Ok {| loss := None; logits := lg |} /\
    forward (fun _ _ k => inject_Z (Z.of_nat k)) (fun row => row)
            (BertWithGlove_init
               {| hidden_size := 2; num_labels := 2; hidden_dropout_prob := 1 # 10 |}
               300 (fun _ _ => 1%Q) (fun _ => 0%Q))
            eval_mode [[101; 102]%Z] [[1; 1]%Z] (Some (Torch.zeros 1 300)) None
    = Ok {| loss := None; logits := lg |} /\
    length lg = 1%nat /\
    Linear_forward {| in_features := 2; out_features := 2;
                      weight := fun _ _ => 1%Q; bias := fun _ => 0%Q |} x = Ok lg0 /\
    Forall2 (Forall2 Qeq) lg lg0.
Proof.
  apply (forward_absent_glove_emb_default
           (fun _ _ k => inject_Z (Z.of_nat k)) (fun row => row)
           {| hidden_size := 2; num_labels := 2; hidden_dropout_prob := 1 # 10 |}
           (fun _ _ => 1%Q) (fun _ => 0%Q) eval_mode [[101; 102]%Z] [[1; 1]%Z]).
  reflexivity.
Defined.

Lemma forward_glove_emb_mismatch_witness :
  forward (fun _ _ k => inject_Z (Z.of_nat k)) (fun row => row)
          (BertWithGlove_init
             {| hidden_size := 2; num_labels := 2; hidden_dropout_prob := 1 # 10 |}
             3 (fun _ _ => 1%Q) (fun _ => 0%Q))
          eval_mode [[101; 102]%Z] [[1; 1]%Z] (Some [[1%Q; 2%Q]]) None
  = Raise RuntimeError.
Proof.
  apply forward_glove_emb_mismatch; [reflexivity|].
  right. split; [done|]. exists 2%nat. split; [lia|]. repeat constructor.
Defined.

(** ** The test cell, end to end *)

Lemma chunks_cover {A} (fuel n : nat) (xs : list A) :
  (0 < n)%nat -> (length xs <= fuel)%nat ->
  concat (chunks fuel n xs) = xs /\ Forall (fun c => c <> []) (chunks fuel n xs).
Proof.
  intros Hn. revert xs. induction fuel as [|fuel IH]; intros xs Hlen.
  - destruct xs; [by split|simpl in Hlen; lia].
  - destruct xs as [|x xs]; [by split|]. cbn [chunks concat].
    destruct (IH (drop n (x :: xs))) as [Hc Hne].
    { rewrite length_drop. simpl in *. lia. }
    rewrite Hc, take_drop. split; [done|]. constructor; [|done].
    destruct n; [lia|done].
Qed.

Lemma mapM_Forall2 {A B} (f : A -> result B) (xs : list A) (ys : list B) :
  Py.mapM f xs = Ok ys -> Forall2 (fun x y => f x = Ok y) xs ys.
Proof.
  revert ys. induction xs as [|x xs IH]; intros ys H; simpl in H.
  - injection H as <-. constructor.
  - apply bind_Ok in H as (y & Hy & H). apply bind_Ok in H as (ys' & Hys & H).
    injection H as <-. constructor; [done|by apply IH].
Qed.

Lemma collate_fn_unlabeled (x : Item) (rest : list Item) :
  Forall (same_shape x) rest -> item_labels x = None ->
  collate_fn (x :: rest)
  = Ok {| batch_input_ids := map item_input_ids (x :: rest);
          batch_attention_mask := map item_attention_mask (x :: rest);
          batch_glove_emb := map item_glove_emb (x :: rest);
          batch_labels := None |}.
Proof.
  intros Hshape Hx. unfold collate_fn.
  rewrite (stack_Ok item_input_ids), (stack_Ok item_attention_mask),
    (stack_Ok item_glove_emb);
    try (eapply Forall_impl; [exact Hshape|]; intros y (? & ? & ?); done).
  rewrite index_0. cbn [mbind result_bind].
  by rewrite Hx, bool_decide_false by (by intros [? ?]).
Qed.

Section TestCell.

Variable pooler : list Z -> list Z -> nat -> Q.
Variable log_softmax : list Q -> list Q.
Variable softmax : list Q -> list Q.
Variable subword_ids : string -> list Z.
Variable pad_token_id : Z.
Variable to_float32 : Q -> Q.
Variable cfg : BertConfig.
Variable W : nat -> nat -> Q.
Variable b : nat -> Q.
Hypothesis binary : num_labels cfg = 2%nat.
Hypothesis softmax_length : forall row, length (softmax row) = length row.

Let model := BertWithGlove_init cfg 300 W b.

Lemma forward_logits_unlabeled (L : nat) (batch : list Item) :
  batch <> [] ->
  Forall (fun x => item_labels x = None /\ length (item_input_ids x) = L /\
                   length (item_attention_mask x) = L /\
                   length (item_glove_emb x) = 300%nat) batch ->
  exists lg, forward_logits pooler log_softmax model batch = Ok lg /\
    length lg = length batch /\ Forall (fun row => length row = 2%nat) lg.
Proof.
  intros Hne Hall. destruct batch as [|x rest]; [done|].
  inversion Hall as [|? ? (Hx & Hi & Hm & Hg) Hrest]; subst.
  unfold forward_logits. rewrite collate_fn_unlabeled; [|apply Forall_forall|done].
  2:{ intros y Hy. rewrite Forall_forall in Hrest.
      destruct (Hrest y Hy) as (_ & ? & ? & ?). unfold same_shape. lia. }
  cbn [mbind result_bind batch_input_ids batch_attention_mask batch_glove_emb
         batch_labels].
  destruct (forward_Ok pooler log_softmax cfg 300 W b eval_mode
              (map item_input_ids (x :: rest)) (map item_attention_mask (x :: rest))
              (map item_glove_emb (x :: rest))) as (lg & Hlg & Hlen & Hrows).
  - by rewrite !length_map.
  - by rewrite !length_map.
  - fmapify. apply Forall_fmap. eapply Forall_impl; [exact Hall|].
    by intros y (_ & _ & _ & ?).
  - fold model in Hlg. rewrite Hlg. cbn [mbind result_bind logits].
    exists lg. rewrite length_map in Hlen. rewrite binary in Hrows. done.
Qed.

Lemma forward_logits_dataset_total (texts : list string)
    (store : gmap string (list Q)) (L : nat) :
  uniform_store store 300 ->
  exists ds lg,
    BertGloveDataset_init subword_ids pad_token_id texts None store L 300 = Ok ds /\
    forward_logits_dataset pooler log_softmax model 8 ds = Ok lg /\
    length lg = length texts /\ Forall (fun row => length row = 2%nat) lg.
Proof.
  intros Hu.
  destruct (mapM_total (fun t => text_to_avg_glove t store 300)
              (fun v => length v = 300%nat) texts) as (embs & Hembs & Hemb300).
  { intros t. by apply avg_glove_uniform. }
  assert (exists ds, BertGloveDataset_init subword_ids pad_token_id texts None
                       store L 300 = Ok ds /\ ds_glove_embs ds = embs) as (ds & Hinit & Hds).
  { unfold BertGloveDataset_init. rewrite Hembs. by eexists. }
  destruct (dataset_items subword_ids pad_token_id texts store L 300 ds Hinit)
    as (items & Hnone & Hitems & _).
  destruct (init_lengths _ _ _ _ _ _ _ _ Hinit) as (Hlen & _).
  assert (Forall (fun x => item_labels x = None /\ length (item_input_ids x) = L /\
                           length (item_attention_mask x) = L /\
                           length (item_glove_emb x) = 300%nat) items) as Hshape.
  { apply mapM_Forall2 in Hitems. apply Forall_forall. intros x Hx.
    apply list_elem_of_lookup in Hx as [i Hx].
    destruct (Forall2_lookup_r _ _ _ _ _ Hitems Hx) as (j & _ & Hget).
    destruct (getitem_shape _ _ _ _ _ _ _ _ _ _ Hinit Hget) as [Hi Hm].
    rewrite Forall_forall in Hnone.
    repeat split; [by apply Hnone, list_elem_of_lookup_2 with i|done|done|].
    unfold BertGloveDataset_getitem in Hget.
    apply bind_Ok in Hget as (? & _ & Hget). apply bind_Ok in Hget as (? & _ & Hget).
    apply bind_Ok in Hget as (g & Hg & Hget). apply bind_Ok in Hget as (? & _ & Hget).
    injection Hget as <-. simpl. apply index_elem_of in Hg.
    rewrite Hds in Hg. rewrite Forall_forall in Hemb300. by apply Hemb300. }
  assert (length items = length texts) as Hil.
  { apply mapM_length in Hitems. by rewrite Hitems, length_seq. }
  assert (forall cs : list (list Item),
            Forall (fun c => c <> []) cs ->
            Forall (Forall (fun x => item_labels x = None /\
                                     length (item_input_ids x) = L /\
                                     length (item_attention_mask x) = L /\
                                     length (item_glove_emb x) = 300%nat)) cs ->
            exists outs,
              Py.mapM (forward_logits pooler log_softmax model) cs = Ok outs /\
              length (concat outs) = length (concat cs) /\
              Forall (fun row => length row = 2%nat) (concat outs)) as Haux.
  { induction cs as [|c cs IH]; intros Hne Hch; [by exists []|].
    inversion Hne; inversion Hch; subst.
    destruct (forward_logits_unlabeled L c) as (lg & Hlg & Hl & Hr); [done|done|].
    destruct IH as (outs & Houts & Hl' & Hr'); [done|done|].
    exists (lg :: outs). cbn [Py.mapM]. rewrite Hlg, Houts. split; [done|].
    cbn [concat]. rewrite !length_app. split; [lia|]. by apply Forall_app. }
  destruct (chunks_cover (length texts) 8 items) as [Hcat Hne]; [lia|lia|].
  pose proof (chunks_Forall _ (length texts) 8 items Hshape) as Hch.
  destruct (Haux _ Hne Hch) as (outs & Houts & Hol & Hor).
  exists ds, (concat outs). split; [done|].
  unfold forward_logits_dataset. rewrite Hitems. cbn [mbind result_bind].
  rewrite Hlen, Houts. split; [done|]. rewrite Hol, Hcat. by split.
Qed.

Lemma test_labels_placeholder_total (texts : list string)
    (store : gmap string (list Q)) :
  uniform_store store 300 ->
  exists ls,
    test_labels pooler log_softmax softmax subword_ids pad_token_id to_float32
                model texts (Some (replicate (length texts) 0%Z)) store = Ok ls /\
    length ls = length texts /\ Forall binary_label ls.
Proof.
  intros Hu.
  destruct (forward_logits_dataset_total texts store 256 Hu)
    as (ds & lg & Hinit & Hpred & Hlen & Hrows).
  pose proof (predict_placeholder pooler log_softmax subword_ids pad_token_id
                model binary texts store 256 300 8) as Hp.
  rewrite Hinit in Hp. cbn [mbind result_bind] in Hp. rewrite Hpred in Hp.
  unfold test_labels.
  destruct (BertGloveDataset_init subword_ids pad_token_id texts
              (Some (replicate (length texts) 0%Z)) store 256 300) as [ds1|e1];
    cbn [mbind result_bind] in *; [|done].
  rewrite Hp. cbn [mbind result_bind].
  assert (exists probs, positive_probs softmax lg = Ok probs) as [probs Hprobs].
  { unfold positive_probs. clear -Hrows softmax_length.
    induction Hrows as [|row lg Hrow _ [probs IH]]; [by exists []|].
    pose proof (softmax_length row) as Hs. rewrite Hrow in Hs.
    destruct (softmax row) as [|p0 [|p1 [|]]] eqn:E; try done.
    exists (p1 :: probs). cbn [Py.mapM]. by rewrite E, IH. }
  rewrite Hprobs. cbn [mbind result_bind mret result_ret].
  eexists. split; [reflexivity|]. split.
  - rewrite length_threshold_labels. apply mapM_length in Hprobs. lia.
  - unfold threshold_labels. fmapify. apply Forall_fmap, Forall_true.
    intros p. simpl. destruct (Qle_bool (to_float32 final_threshold) p);
      [by right|by left].
Qed.

End TestCell.

(** X15: the test cell gives one label per record.  For a non-empty list
    of texts, a binary model of [glove_dim] 300, a store whose vectors have
    dimension 300 and a softmax that keeps the length of a row, the cell
    (with its placeholder labels) returns a list of labels as long as the
    list of texts, each 0 or 1. *)
Theorem test_cell_labels (pooler : list Z -> list Z -> nat -> Q)
    (log_softmax softmax : list Q -> list Q)
    (subword_ids : string -> list Z) (pad_token_id : Z) (to_float32 : Q -> Q)
    (cfg : BertConfig) (W : nat -> nat -> Q) (b : nat -> Q)
    (texts : list string) (store : gmap string (list Q)) :
  texts <> [] ->
  num_labels cfg = 2%nat ->
  (forall row, length (softmax row) = length row) ->
  uniform_store store 300 ->
  exists ls,
    test_labels pooler log_softmax softmax subword_ids pad_token_id to_float32
                (BertWithGlove_init cfg 300 W b) texts
                (Some (replicate (length texts) 0%Z)) store = Ok ls /\
    length ls = length texts /\ Forall binary_label ls.
Proof.
  intros _ Hbin Hsoft Hu. by apply test_labels_placeholder_total.
Qed.

Lemma test_cell_labels_witness :
  exists ls,
    test_labels (fun _ _ k => inject_Z (Z.of_nat k)) (fun row => row) (fun row => row)
                char_ids 0 round24
                (BertWithGlove_init
                   {| hidden_size := 2; num_labels := 2; hidden_dropout_prob := 1 # 10 |}
                   300 (fun _ _ => 1%Q) (fun _ => 0%Q))
                ["cow gene"; "a"] (Some (replicate (length ["cow gene"; "a"]) 0%Z)) ∅
    = Ok ls /\
    length ls = length ["cow gene"; "a"] /\ Forall binary_label ls.
Proof.
  apply test_cell_labels; [done|reflexivity|reflexivity|].
  intros k v. by rewrite lookup_empty.
Defined.

(** X16: the all-zero vector of a text without known token has length
    [glove_dim], the average of a text with a known token has the store's
    dimension.  When the two dimensions differ, the examples of two such
    texts cannot be collated: [collate_fn] raises [RuntimeError]. *)
Theorem collate_fn_dimension_clash (subword_ids : string -> list Z) (pad_token_id : Z)
    (t1 t2 : string) (labels : option (list Z)) (store : gmap string (list Q))
    (max_length glove_dim d : nat) :
  uniform_store store d -> d <> glove_dim ->
  hits t1 store = [] -> hits t2 store <> [] ->
  (forall ls, labels = Some ls -> length ls = 2%nat) ->
  exists ds x1 x2,
    BertGloveDataset_init subword_ids pad_token_id [t1; t2] labels store
                          max_length glove_dim = Ok ds /\
    BertGloveDataset_getitem ds 0 = Ok x1 /\
    BertGloveDataset_getitem ds 1 = Ok x2 /\
    length (item_glove_emb x1) = glove_dim /\
    length (item_glove_emb x2) = d /\
    collate_fn [x1; x2] = Raise RuntimeError.
Proof.
  intros Hu Hd H1 H2 Hls.
  assert (text_to_avg_glove t1 store glove_dim = Ok (Np.zeros glove_dim)) as Hv1
    by (by rewrite text_to_avg_glove_hits, H1).
  assert (exists v2, text_to_avg_glove t2 store glove_dim = Ok v2 /\ length v2 = d)
    as (v2 & Hv2 & Hl2).
  { rewrite text_to_avg_glove_hits.
    pose proof (hits_uniform t2 store d Hu) as Hall.
    destruct (hits t2 store) as [|h hs]; [done|].
    destruct (mean_axis0_spec d h hs Hall) as (r & Hr & Hlen & _). eauto. }
  assert (exists ds, BertGloveDataset_init subword_ids pad_token_id [t1; t2] labels
                       store max_length glove_dim = Ok ds) as [ds Hinit].
  { unfold BertGloveDataset_init. cbn [Py.mapM]. rewrite Hv1, Hv2. by eexists. }
  destruct (getitem_nat _ _ _ _ _ _ _ _ 0%nat t1 Hinit eq_refl) as (e1 & _ & He1 & Hg1).
  destruct (getitem_nat _ _ _ _ _ _ _ _ 1%nat t2 Hinit eq_refl) as (e2 & _ & He2 & Hg2).
  rewrite Hv1 in He1. injection He1 as <-. rewrite Hv2 in He2. injection He2 as <-.
  assert (exists l1 l2,
            match labels with
            | Some ls => l ← Py.index ls (Z.of_nat 0); mret (Some l)
            | None => mret None
            end = Ok l1 /\
            match labels with
            | Some ls => l ← Py.index ls (Z.of_nat 1); mret (Some l)
            | None => mret None
            end = Ok l2) as (l1 & l2 & Hl1 & Hl2').
  { destruct labels as [ls|]; [|by eexists _, _].
    specialize (Hls ls eq_refl). destruct ls as [|a [|c [|]]]; try done.
    by eexists _, _. }
  rewrite Hl1 in Hg1. rewrite Hl2' in Hg2. cbn [mbind result_bind mret result_ret] in *.
  eexists ds, _, _. split; [done|]. split; [exact Hg1|]. split; [exact Hg2|].
  cbn [item_glove_emb]. split; [by unfold Np.zeros; rewrite length_replicate|].
  split; [done|].
  apply collate_fn_inversion. right. eexists _, _. split; [reflexivity|].
  intros H. apply Forall_cons_1 in H as [(_ & _ & H) _]. cbn in H.
  unfold Np.zeros in H. rewrite length_replicate in H. lia.
Qed.

Lemma collate_fn_dimension_clash_witness :
  exists ds x1 x2,
    BertGloveDataset_init char_ids 0 ["xyz"; "cow gene"] None storeA 4 300 = Ok ds /\
    BertGloveDataset_getitem ds 0 = Ok x1 /\
    BertGloveDataset_getitem ds 1 = Ok x2 /\
    length (item_glove_emb x1) = 300%nat /\
    length (item_glove_emb x2) = 2%nat /\
    collate_fn [x1; x2] = Raise RuntimeError.
Proof.
  apply (collate_fn_dimension_clash char_ids 0 "xyz" "cow gene" None storeA 4 300 2
           uniform_storeA).
  - lia.
  - vm_compute. reflexivity.
  - vm_compute. discriminate.
  - intros ls [=].
Defined.

(** ** More on thresholds, the sweep and the metrics *)

Lemma fold_add_acc (xs : list Z) (acc : Z) :
  fold_left Z.add xs acc = (acc + fold_left Z.add xs 0)%Z.
Proof.
  revert acc. induction xs as [|x xs IH]; intros acc; cbn [fold_left]; [lia|].
  rewrite (IH (acc + x)%Z), (IH (0 + x)%Z). lia.
Qed.

(** X17: raising the threshold never predicts more positives: an example
    predicted positive at a threshold is predicted positive at every lower
    one, and the number of predicted positives, between 0 and the number
    of examples, does not increase with the threshold. *)
Theorem predicted_positives_monotone (probs : list Q) (t1 t2 : Q) :
  (t1 <= t2)%Q ->
  Forall2 Z.le (threshold_labels probs t2) (threshold_labels probs t1) /\
  (0 <= predicted_positives probs t2 <= predicted_positives probs t1)%Z /\
  (predicted_positives probs t1 <= Z.of_nat (length probs))%Z.
Proof.
  intros Ht. unfold predicted_positives.
  induction probs as [|p probs (IH1 & IH2 & IH3)].
  - split; [constructor|]. simpl. lia.
  - rewrite !threshold_labels_cons. cbn [fold_left length].
    rewrite (fold_add_acc _ (0 + _)), (fold_add_acc _ (0 + _)).
    assert (Qle_bool t2 p = true -> Qle_bool t1 p = true) as Hmono.
    { rewrite !Qle_bool_iff. intros H. by eapply Qle_trans. }
    destruct (Qle_bool t2 p), (Qle_bool t1 p);
      try (by specialize (Hmono eq_refl));
      (split; [constructor; [lia|done]|lia]).
Qed.

Lemma predicted_positives_monotone_witness :
  Forall2 Z.le (threshold_labels [1 # 10; 6 # 10; 9 # 10]%Q (35 # 100))
               (threshold_labels [1 # 10; 6 # 10; 9 # 10]%Q (2 # 10)) /\
  (0 <= predicted_positives [1 # 10; 6 # 10; 9 # 10]%Q (35 # 100)
     <= predicted_positives [1 # 10; 6 # 10; 9 # 10]%Q (2 # 10))%Z /\
  (predicted_positives [1 # 10; 6 # 10; 9 # 10]%Q (2 # 10)
   <= Z.of_nat (length [1 # 10; 6 # 10; 9 # 10]%Q))%Z.
Proof. apply predicted_positives_monotone. by vm_compute. Defined.

Lemma f1_at_bounds (probs : list Q) (y : list Z) (t : Q) :
  (0 <= f1_at probs y t <= 1)%Q.
Proof.
  unfold f1_at, Sk.f1_score.
  destruct (negb _); [split; by vm_compute|].
  set (pred := threshold_labels probs t).
  pose proof (count_nonneg 1 1 y pred) as Htp.
  pose proof (count_nonneg 0 1 y pred) as Hfp.
  pose proof (count_nonneg 1 0 y pred) as Hfn.
  fold Sk.tp Sk.fp Sk.fn in *.
  destruct (Z.eqb_spec (2 * Sk.tp y pred + Sk.fp y pred + Sk.fn y pred) 0) as [|Hne];
    [split; by vm_compute|].
  assert (0 < inject_Z (2 * Sk.tp y pred + Sk.fp y pred + Sk.fn y pred))%Q as Hpos.
  { change 0%Q with (inject_Z 0). rewrite <- Zlt_Qlt. lia. }
  split.
  - apply Qle_shift_div_l; [done|]. rewrite Qmult_0_l.
    change 0%Q with (inject_Z 0). rewrite <- Zle_Qle. lia.
  - apply Qle_shift_div_r; [done|]. rewrite Qmult_1_l, <- Zle_Qle. lia.
Qed.

(** X18: what the sweep returns on binary labels, one per probability.
    The best F1 is between 0 and 1, is at least the F1 of every candidate,
    and is 0 or the F1 of the returned threshold; the returned threshold is
    a candidate or the initial 0.5.  For the candidates of the sweep cell
    it lies between 0.05 and 0.5. *)
Theorem sweep_result_bounds (dev_probs : list Q) (y_dev : list Z) (ts : list Q) :
  length dev_probs = length y_dev -> Forall binary_label y_dev ->
  exists best_t best_f1,
    sweep dev_probs y_dev ts = Ok (best_t, best_f1) /\
    (best_t = (1 # 2)%Q /\ best_f1 = 0%Q \/
     best_t ∈ ts /\ best_f1 = f1_at dev_probs y_dev best_t) /\
    (0 <= best_f1 <= 1)%Q /\
    (forall t, t ∈ ts -> (f1_at dev_probs y_dev t <= best_f1)%Q) /\
    (ts = np_arange (5 # 100) (1 # 2) (1 # 100) ->
     (5 # 100 <= best_t <= 1 # 2)%Q).
Proof.
  intros Hlen _. unfold sweep.
  destruct (sweep_loop_spec dev_probs y_dev ts 0 (1 # 2) Hlen)
    as (t' & f' & Hrun & [(Hall & -> & ->)|(Hfb & -> & Hlt)]).
  - exists (1 # 2)%Q, 0%Q. split; [done|]. split; [by left|].
    split; [split; by vm_compute|]. split.
    + intros t Ht. rewrite Forall_forall in Hall. by apply Hall.
    + intros _. split; by vm_compute.
  - exists t', (f1_at dev_probs y_dev t'). split; [done|].
    destruct Hfb as (pre & post & -> & Hpre & Hpost).
    assert (t' ∈ pre ++ t' :: post) as Hin by (apply elem_of_app; right; left).
    split; [by right|]. split; [apply f1_at_bounds|]. split.
    + intros t Ht. apply elem_of_app in Ht as [Ht|Ht].
      * rewrite Forall_forall in Hpre. by apply Qlt_le_weak, Hpre.
      * apply elem_of_cons in Ht as [->|Ht]; [apply Qle_refl|].
        rewrite Forall_forall in Hpost. by apply Hpost.
    + intros Heq. rewrite Heq in Hin. clear -Hin.
      assert (forallb (fun u => Qle_bool (5 # 100) u && Qle_bool u (1 # 2))
                (np_arange (5 # 100) (1 # 2) (1 # 100)) = true) as Hb
        by (vm_compute; reflexivity).
      rewrite forallb_forall in Hb. apply list_elem_of_In, Hb in Hin.
      apply andb_true_iff in Hin as [H1 H2].
      by rewrite !Qle_bool_iff in *.
Qed.

Lemma sweep_result_bounds_witness :
  exists best_t best_f1,
    sweep [1 # 10; 6 # 10; 9 # 10; 5 # 100]%Q [0; 1; 1; 0]%Z
          (np_arange (5 # 100) (1 # 2) (1 # 100)) = Ok (best_t, best_f1) /\
    (best_t = (1 # 2)%Q /\ best_f1 = 0%Q \/
     best_t ∈ np_arange (5 # 100) (1 # 2) (1 # 100) /\
     best_f1 = f1_at [1 # 10; 6 # 10; 9 # 10; 5 # 100]%Q [0; 1; 1; 0]%Z best_t) /\
    (0 <= best_f1 <= 1)%Q /\
    (forall t, t ∈ np_arange (5 # 100) (1 # 2) (1 # 100) ->
               (f1_at [1 # 10; 6 # 10; 9 # 10; 5 # 100]%Q [0; 1; 1; 0]%Z t <= best_f1)%Q) /\
    (np_arange (5 # 100) (1 # 2) (1 # 100) = np_arange (5 # 100) (1 # 2) (1 # 100) ->
     (5 # 100 <= best_t <= 1 # 2)%Q).
Proof.
  refine (sweep_result_bounds [1 # 10; 6 # 10; 9 # 10; 5 # 100]%Q [0; 1; 1; 0]%Z
            (np_arange (5 # 100) (1 # 2) (1 # 100)) eq_refl _).
  binary_labels.
Defined.

(** X19: more candidates cannot lower the result.  On binary labels, one
    per probability, the best F1 of a sweep over a list of candidates
    extended by further ones is at least the best F1 of the sweep over the
    list. *)
Theorem sweep_more_candidates (dev_probs : list Q) (y_dev : list Z) (ts ts' : list Q) :
  length dev_probs = length y_dev -> Forall binary_label y_dev ->
  exists t1 f1 t2 f2,
    sweep dev_probs y_dev ts = Ok (t1, f1) /\
    sweep dev_probs y_dev (ts ++ ts') = Ok (t2, f2) /\
    (f1 <= f2)%Q.
Proof.
  intros Hlen _. unfold sweep.
  destruct (sweep_loop_spec dev_probs y_dev ts 0 (1 # 2) Hlen)
    as (t1 & f1 & Hrun1 & H1).
  destruct (sweep_loop_spec dev_probs y_dev (ts ++ ts') 0 (1 # 2) Hlen)
    as (t2 & f2 & Hrun2 & H2).
  exists t1, f1, t2, f2. split; [done|]. split; [done|].
  assert (0 <= f2)%Q as Hf2.
  { destruct H2 as [(_ & _ & ->)|(_ & -> & _)]; [by vm_compute|apply f1_at_bounds]. }
  assert (forall t, t ∈ ts ++ ts' -> (f1_at dev_probs y_dev t <= f2)%Q) as Hmax.
  { destruct H2 as [(Hall & _ & ->)|((pre & post & Heq & Hpre & Hpost) & -> & _)].
    - intros t Ht. rewrite Forall_forall in Hall. by apply Hall.
    - intros t Ht. rewrite Heq in Ht. apply elem_of_app in Ht as [Ht|Ht].
      + rewrite Forall_forall in Hpre. by apply Qlt_le_weak, Hpre.
      + apply elem_of_cons in Ht as [->|Ht]; [apply Qle_refl|].
        rewrite Forall_forall in Hpost. by apply Hpost. }
  destruct H1 as [(_ & _ & ->)|((pre & post & Heq & _) & -> & _)]; [done|].
  apply Hmax. rewrite Heq. apply elem_of_app. left.
  apply elem_of_app. right. left.
Qed.

Lemma sweep_more_candidates_witness :
  exists t1 f1 t2 f2,
    sweep [1 # 10; 6 # 10; 9 # 10]%Q [0; 1; 1]%Z [5 # 100]%Q = Ok (t1, f1) /\
    sweep [1 # 10; 6 # 10; 9 # 10]%Q [0; 1; 1]%Z ([5 # 100]%Q ++ [2 # 10]%Q) = Ok (t2, f2) /\
    (f1 <= f2)%Q.
Proof.
  refine (sweep_more_candidates [1 # 10; 6 # 10; 9 # 10]%Q [0; 1; 1]%Z
            [5 # 100]%Q [2 # 10]%Q eq_refl _).
  binary_labels.
Defined.





